(** * A weather lookup at the command line: city search and five-day forecast

    The repository holds the same program twice.  [weather.py] lets
    [search_city] ask the user which of several matching cities is meant;
    [testing.py] has [search_city] hand back every match and leaves the
    question to [main].  Both then fetch a forecast in three-hour steps and
    keep every eighth reading of the first forty.

    The program is Python: its values are what [requests.get(url).json()]
    yields, its failures are exceptions, and its effects are lines read from
    standard input, text written to standard output and HTTP requests.  The
    embedding keeps the three apart:
    - a [json] value is Python's reading of a JSON text;
    - an operation that may raise returns a [result];
    - a function of the program is a computation [M A]: it takes the lines
      still waiting on standard input and gives what it returned or raised,
      the lines it left unread and the events it caused, in order. *)

From Stdlib Require Import Bool Ascii String List ZArith QArith Lia DecimalString.
Import ListNotations.

Local Set Warnings "-register-all".
Local Open Scope string_scope.
Local Open Scope Z_scope.

(** ** Characters and the [str] methods the program calls

    A [str] is a [string] whose characters are code points below 256, the
    Latin-1 range.  The tables below are Unicode's for that range. *)

Definition ord (c : ascii) : Z := Z.of_N (N_of_ascii c).
Definition chr (n : Z) : ascii := ascii_of_N (Z.to_N n).

Definition between (lo hi n : Z) : bool := (lo <=? n) && (n <=? hi).

(** [c.isspace()]: tab to carriage return, the four separators 28..31, the
    space, NEL (133) and the no-break space (160). *)
Definition isspace (c : ascii) : bool :=
  let n := ord c in
  between 9 13 n || between 28 32 n || (n =? 133) || (n =? 160).

(** [c.isdecimal()]: the digits 0 to 9. *)
Definition isdecimal (c : ascii) : bool := between 48 57 (ord c).

(** [c.isdigit()]: the decimal digits and the superscripts two (178), three
    (179) and one (185), which have a digit value and no decimal value. *)
Definition isdigit (c : ascii) : bool :=
  let n := ord c in
  isdecimal c || (n =? 178) || (n =? 179) || (n =? 185).

Definition chars (s : string) : list ascii := list_ascii_of_string s.
Definition str_of_chars (l : list ascii) : string := string_of_list_ascii l.

Fixpoint lstrip (s : string) : string :=
  match s with
  | EmptyString => EmptyString
  | String c s' => if isspace c then lstrip s' else s
  end.

Definition reverse (s : string) : string := str_of_chars (rev (chars s)).

Definition rstrip (s : string) : string := reverse (lstrip (reverse s)).

(** [s.strip()] *)
Definition strip (s : string) : string := rstrip (lstrip s).

(** [s.isdigit()]: at least one character, and every one a digit. *)
Definition str_isdigit (s : string) : bool :=
  negb (String.eqb s "") && forallb isdigit (chars s).

(** [s[:n]] for [0 <= n]. *)
Fixpoint prefix (n : nat) (s : string) : string :=
  match n, s with
  | S n', String c s' => String c (prefix n' s')
  | _, _ => EmptyString
  end.

(** ** Exceptions *)

Inductive exn : Set :=
| KeyError | IndexError | TypeError | AttributeError | ValueError | EOFError.

Inductive result (A : Type) : Type :=
| Ok (value : A)
| Raise (e : exn).
Arguments Ok {A} value.
Arguments Raise {A} e.

Definition result_bind {A B} (r : result A) (k : A -> result B) : result B :=
  match r with
  | Ok a => k a
  | Raise e => Raise e
  end.

Declare Scope result_scope.
Delimit Scope result_scope with result.
Notation "x <- r ;; k" := (result_bind r (fun x => k))
  (at level 61, r at next level, right associativity) : result_scope.

(** Running a loop body over the values an iterator yields, collecting what
    the body appends; the first exception ends the loop. *)
Fixpoint collect {A B} (body : A -> result B) (xs : list A) : result (list B) :=
  match xs with
  | [] => Ok []
  | x :: xs' =>
      (y <- body x ;;
       ys <- collect body xs' ;;
       Ok (y :: ys))%result
  end.

(** [int(s)] for a [str] made of digit characters, which is all the program
    passes: the decimal value when every character is a decimal digit,
    [ValueError] when one is not (a superscript, or the empty string).
    CPython also refuses to convert a text of more than
    [sys.int_max_str_digits] digits, 4300 unless the interpreter was started
    with another limit, and raises [ValueError] for it; leading zeros
    count. *)
Fixpoint decimal_value (acc : Z) (s : string) : result Z :=
  match s with
  | EmptyString => Ok acc
  | String c s' =>
      if isdecimal c then decimal_value (10 * acc + (ord c - 48)) s'
      else Raise ValueError
  end.

Definition int_max_str_digits : Z := 4300.

Definition py_int (s : string) : result Z :=
  match s with
  | EmptyString => Raise ValueError
  | _ =>
      if int_max_str_digits <? Z.of_nat (String.length s) then Raise ValueError
      else decimal_value 0 s
  end.

(** ** JSON values as Python holds them *)

Inductive json : Type :=
| JNull                                   (* None *)
| JBool (b : bool)
| JInt (z : Z)
| JFloat (q : Q)                          (* a float, as the number it is *)
| JStr (s : string)
| JArr (items : list json)                (* a list *)
| JObj (fields : list (string * json)).   (* a dict, in insertion order *)

Fixpoint lookup (key : string) (fields : list (string * json)) : option json :=
  match fields with
  | [] => None
  | (k, v) :: fields' => if String.eqb k key then Some v else lookup key fields'
  end.

(** Truth value of a value, as [if v:] and [not v] take it. *)
Definition truthy (v : json) : bool :=
  match v with
  | JNull => false
  | JBool b => b
  | JInt z => negb (z =? 0)
  | JFloat q => negb (Qeq_bool q 0)
  | JStr s => negb (String.eqb s "")
  | JArr items => match items with [] => false | _ => true end
  | JObj fields => match fields with [] => false | _ => true end
  end.

(** [len(v)] *)
Definition py_len (v : json) : result Z :=
  match v with
  | JStr s => Ok (Z.of_nat (String.length s))
  | JArr items => Ok (Z.of_nat (List.length items))
  | JObj fields => Ok (Z.of_nat (List.length fields))
  | _ => Raise TypeError
  end.

(** [l[i]] on a sequence of [n] items: a negative index counts from the end,
    and an index outside [-n .. n-1] raises [IndexError]. *)
Definition seq_getitem {A} (l : list A) (i : Z) : result A :=
  let n := Z.of_nat (List.length l) in
  let j := if i <? 0 then i + n else i in
  if (0 <=? j) && (j <? n) then
    match nth_error l (Z.to_nat j) with
    | Some x => Ok x
    | None => Raise IndexError
    end
  else Raise IndexError.

(** [v[i]] for an integer [i].  The keys of a dict read from JSON are
    strings, so an integer is never among them. *)
Definition py_getitem_int (v : json) (i : Z) : result json :=
  match v with
  | JArr items => seq_getitem items i
  | JStr s =>
      (c <- seq_getitem (chars s) i ;; Ok (JStr (String c EmptyString)))%result
  | JObj _ => Raise KeyError
  | _ => Raise TypeError
  end.

(** [v[key]] for a string [key]. *)
Definition py_getitem_str (v : json) (key : string) : result json :=
  match v with
  | JObj fields =>
      match lookup key fields with
      | Some x => Ok x
      | None => Raise KeyError
      end
  | _ => Raise TypeError
  end.

(** [v.get(key, default)]: only a dict has the method. *)
Definition py_get (v : json) (key : string) (default : json) : result json :=
  match v with
  | JObj fields =>
      match lookup key fields with
      | Some x => Ok x
      | None => Ok default
      end
  | _ => Raise AttributeError
  end.

(** [v[:n]] for [0 <= n]: a [str] and a list can be sliced; nothing else
    can (for a dict the exception is a [KeyError] from Python 3.12 on). *)
Definition py_slice_to (v : json) (n : nat) : result json :=
  match v with
  | JStr s => Ok (JStr (prefix n s))
  | JArr items => Ok (JArr (firstn n items))
  | _ => Raise TypeError
  end.

(** [iter(v)]: the items of a list, the characters of a [str], the keys of a
    dict. *)
Definition py_iter (v : json) : result (list json) :=
  match v with
  | JArr items => Ok items
  | JStr s => Ok (map (fun c => JStr (String c EmptyString)) (chars s))
  | JObj fields => Ok (map (fun kv => JStr (fst kv)) fields)
  | _ => Raise TypeError
  end.

(** [range(start, stop, step)] for a positive [step]: [start + k*step] for
    the [k >= 0] that keep it below [stop]. *)
Definition py_range (start stop step : Z) : list Z :=
  map (fun k => start + Z.of_nat k * step)
      (seq 0 (Z.to_nat ((stop - start + step - 1) / step))).

(** The number a value stands for in a comparison; [True] is 1. *)
Definition number (v : json) : option Q :=
  match v with
  | JBool b => Some (if b then 1%Q else 0%Q)
  | JInt z => Some (inject_Z z)
  | JFloat q => Some q
  | _ => None
  end.

(** [a == b]: numbers by value, strings and lists item by item, dicts key by
    key whatever their order. *)
Fixpoint py_eq (a b : json) {struct a} : bool :=
  match a, b with
  | JNull, JNull => true
  | JStr s, JStr t => String.eqb s t
  | JArr xs, JArr ys =>
      (fix items (xs ys : list json) {struct xs} : bool :=
         match xs, ys with
         | [], [] => true
         | x :: xs', y :: ys' => py_eq x y && items xs' ys'
         | _, _ => false
         end) xs ys
  | JObj fs, JObj gs =>
      (Nat.eqb (List.length fs) (List.length gs)) &&
      (fix keys (fs : list (string * json)) {struct fs} : bool :=
         match fs with
         | [] => true
         | (k, v) :: fs' =>
             match lookup k gs with
             | Some w => py_eq v w
             | None => false
             end && keys fs'
         end) fs
  | _, _ =>
      match number a, number b with
      | Some x, Some y => Qeq_bool x y
      | _, _ => false
      end
  end.

(** [urllib.parse.quote(s)] with its default [safe="/"]: letters, digits and
    [_.-~/] stay, every other character becomes [%XX] for each byte of its
    UTF-8 encoding (two bytes from 128 on). *)
Definition always_safe (c : ascii) : bool :=
  let n := ord c in
  between 65 90 n || between 97 122 n || between 48 57 n ||
  (n =? 95) || (n =? 46) || (n =? 45) || (n =? 126).

Definition hex_digit (n : Z) : ascii :=
  if n <? 10 then chr (48 + n) else chr (55 + n).

Definition percent (byte : Z) : string :=
  String "%" (String (hex_digit (byte / 16))
                     (String (hex_digit (byte mod 16)) EmptyString)).

Definition quote_char (c : ascii) : string :=
  let n := ord c in
  if always_safe c || (n =? 47) then String c EmptyString
  else if n <? 128 then percent n
  else percent (192 + n / 64) ++ percent (128 + n mod 64).

Fixpoint quote (s : string) : string :=
  match s with
  | EmptyString => EmptyString
  | String c s' => quote_char c ++ quote s'
  end.

(** ** What the program takes from outside

    The answers of the weather service, and three pieces of CPython's text
    handling that need Unicode's case tables or binary floating point:
    [str.title], the printing of a value that is neither a [str], an [int],
    a [bool] nor [None], and the format [.1f].  The service answers every
    request with a JSON text: a network fault, or a body that is no JSON,
    raises in [requests] and is not part of this development. *)

Class Platform : Type := {
  http_get_json : string -> json;        (* requests.get(url).json() *)
  str_title : string -> string;          (* s.title() *)
  repr : json -> string;                 (* str(v): floats, lists, dicts *)
  format_1f : json -> result string      (* format(v, ".1f") *)
}.

(** [d.title()]: only a [str] has the method. *)
Definition py_title `{Platform} (v : json) : result json :=
  match v with
  | JStr s => Ok (JStr (str_title s))
  | _ => Raise AttributeError
  end.

(** [str(v)], which is what [f"{v}"] puts in the text. *)
Definition py_str `{Platform} (v : json) : string :=
  match v with
  | JStr s => s
  | JInt z => NilZero.string_of_int (Z.to_int z)
  | JBool true => "True"
  | JBool false => "False"
  | JNull => "None"
  | _ => repr v
  end.

(** ** Effects *)

Inductive event : Type :=
| Get (url : string)          (* an HTTP GET *)
| Prompt (text : string)      (* the prompt of an [input] *)
| Print (line : string).      (* a [print] *)

Record outcome (A : Type) : Type := Outcome {
  res : result A;             (* what was returned, or raised *)
  rest : list string;         (* the input lines left unread *)
  log : list event            (* what happened, first event first *)
}.
Arguments Outcome {A} res rest log.
Arguments res {A} o.
Arguments rest {A} o.
Arguments log {A} o.

Definition M (A : Type) : Type := list string -> outcome A.

Definition ret {A} (a : A) : M A := fun stdin => Outcome (Ok a) stdin [].

Definition bind {A B} (m : M A) (k : A -> M B) : M B :=
  fun stdin =>
    let o := m stdin in
    match res o with
    | Ok a =>
        let o' := k a (rest o) in
        Outcome (res o') (rest o') (log o ++ log o')%list
    | Raise e => Outcome (Raise e) (rest o) (log o)
    end.

(** A step that touches neither input nor output. *)
Definition lift {A} (r : result A) : M A := fun stdin => Outcome r stdin [].

Definition print (line : string) : M unit :=
  fun stdin => Outcome (Ok tt) stdin [Print line].

(** [input(prompt)]: at the end of the input it raises [EOFError]. *)
Definition input (prompt : string) : M string :=
  fun stdin =>
    match stdin with
    | [] => Outcome (Raise EOFError) [] [Prompt prompt]
    | line :: stdin' => Outcome (Ok line) stdin' [Prompt prompt]
    end.

Definition requests_get_json `{Platform} (url : string) : M json :=
  fun stdin => Outcome (Ok (http_get_json url)) stdin [Get url].

Declare Scope io_scope.
Delimit Scope io_scope with io.
Notation "x <- m ;; k" := (bind m (fun x => k))
  (at level 61, m at next level, right associativity) : io_scope.
Notation "m ;; k" := (bind m (fun _ => k))
  (at level 61, right associativity) : io_scope.

(** [for x in xs: body(x)] *)
Fixpoint for_each {A} (body : A -> M unit) (xs : list A) : M unit :=
  match xs with
  | [] => ret tt
  | x :: xs' => (body x ;; for_each body xs')%io
  end.

(** [enumerate(xs, start)] *)
Fixpoint enumerate {A} (start : Z) (xs : list A) : list (Z * A) :=
  match xs with
  | [] => []
  | x :: xs' => (start, x) :: enumerate (start + 1) xs'
  end.

(** The loop both files use to ask for a choice:
<<
    while True:
        line = input(prompt)
        (attempt: return a value, or fall through)
        print(invalid)
>>
    [attempt] is the part between the two, which returns from the loop
    ([Some]), falls through to the [print] ([None]) or raises.  Every turn
    reads one line, so the loop is a recursion on the lines waiting. *)
Fixpoint ask_until {A} (prompt invalid : string)
    (attempt : string -> result (option A)) (stdin : list string) : outcome A :=
  match stdin with
  | [] => Outcome (Raise EOFError) [] [Prompt prompt]
  | line :: stdin' =>
      match attempt line with
      | Raise e => Outcome (Raise e) stdin' [Prompt prompt]
      | Ok (Some a) => Outcome (Ok a) stdin' [Prompt prompt]
      | Ok None =>
          let o := ask_until prompt invalid attempt stdin' in
          Outcome (res o) (rest o) (Prompt prompt :: Print invalid :: log o)
      end
  end.

Definition newline : string := String "010" EmptyString.
Definition city_prompt : string := "City?" ++ newline ++ "> ".
Definition degree : string := String "176" EmptyString.

Definition BASE_URI : string := "https://weather.lewagon.com".

(** ** [weather.py]: the callee asks which city is meant *)

Module Weather.
Section Program.
Context `{Platform}.
Local Open Scope io_scope.

Definition geo_url (query : string) : string :=
  BASE_URI ++ "/geo/1.0/direct?q=" ++ quote query ++ "&limit=5".

Definition forecast_url (lat lon : json) : string :=
  BASE_URI ++ "/data/2.5/forecast?lat=" ++ py_str lat ++ "&lon=" ++ py_str lon
    ++ "&units=metric".

Definition no_city_name : string := "No city name provided, please try again.".
Definition no_city_found : string :=
  "No city found for that query, please try again.".
Definition which_city : string :=
  "Which city did you mean? Enter index:" ++ newline ++ "> ".
Definition invalid_choice : string :=
  "Invalid choice, please enter a valid number from the list above.".

(** Lines 43 to 51: one line of the list of matches. *)
Definition menu_line (idx : Z) (city_info : json) : result string :=
  (country <- py_get city_info "country" (JStr "") ;;
   state <- py_get city_info "state" (JStr "") ;;
   name <- py_get city_info "name" (JStr "") ;;
   if truthy state && negb (py_eq state name)
   then Ok (py_str (JInt idx) ++ ". " ++ py_str name ++ ", " ++ py_str state
              ++ ", " ++ py_str country)
   else Ok (py_str (JInt idx) ++ ". " ++ py_str name ++ ", "
              ++ py_str country))%result.

(** Lines 57 to 60: what the loop does with the line it read. *)
Definition attempt (response : json) (user_choice : string)
  : result (option json) :=
  if str_isdigit user_choice then
    (choice_index <- py_int user_choice ;;
     if 1 <=? choice_index then
       (n <- py_len response ;;
        if choice_index <=? n then
          (city <- py_getitem_int response (choice_index - 1) ;; Ok (Some city))
        else Ok None)
     else Ok None)%result
  else Ok None.

(** Lines 33 to 61: from the matches to the one city. *)
Definition choose (response : json) : M json :=
  n <- lift (py_len response) ;;
  if n =? 1 then lift (py_getitem_int response 0)
  else
    print "Multiple matches found:" ;;
    cities <- lift (py_iter response) ;;
    for_each (fun '(idx, city_info) =>
                line <- lift (menu_line idx city_info) ;; print line)
             (enumerate 1 cities) ;;
    ask_until which_city invalid_choice (attempt response).

Definition search_city (query : string) : M json :=
  if negb (truthy (JStr (strip query))) then
    print no_city_name ;;
    ret JNull
  else
    response <- requests_get_json (geo_url query) ;;
    if negb (truthy response) then
      print no_city_found ;;
      ret JNull
    else choose response.

(** Lines 83 to 91: the body of the loop over the sampled indices. *)
Definition daily (forecasts : json) (i : Z) : result json :=
  (entry <- py_getitem_int forecasts i ;;
   dt_txt <- py_getitem_str entry "dt_txt" ;;
   date_str <- py_slice_to dt_txt 10 ;;
   weather <- py_getitem_str entry "weather" ;;
   first <- py_getitem_int weather 0 ;;
   text <- py_getitem_str first "description" ;;
   description <- py_title text ;;
   readings <- py_getitem_str entry "main" ;;
   temp <- py_getitem_str readings "temp_max" ;;
   Ok (JObj [("date", date_str); ("description", description); ("temp", temp)])
  )%result.

Definition weather_forecast (lat lon : json) : M json :=
  response <- requests_get_json (forecast_url lat lon) ;;
  forecasts <- lift (py_get response "list" (JArr [])) ;;
  n <- lift (py_len forecasts) ;;
  daily_forecast <- lift (collect (daily forecasts) (py_range 0 (Z.min n 40) 8)) ;;
  ret (JArr daily_forecast).

(** Line 121: one line of the forecast. *)
Definition day_line (day : json) : result string :=
  (date <- py_getitem_str day "date" ;;
   description <- py_getitem_str day "description" ;;
   temp <- py_getitem_str day "temp" ;;
   shown <- format_1f temp ;;
   Ok (py_str date ++ ": " ++ py_str description ++ " " ++ shown ++ degree ++ "C")
  )%result.

(** Lines 109 to 123: from the city to the printed forecast. *)
Definition report (city : json) : M unit :=
  lat <- lift (py_getitem_str city "lat") ;;
  lon <- lift (py_getitem_str city "lon") ;;
  name <- lift (py_getitem_str city "name") ;;
  forecast_data <- weather_forecast lat lon ;;
  if truthy forecast_data then
    print ("Here's the weather in " ++ py_str name) ;;
    days <- lift (py_iter forecast_data) ;;
    for_each (fun day => line <- lift (day_line day) ;; print line) days
  else
    print ("No forecast data found for " ++ py_str name ++ ".").

Definition main : M unit :=
  query <- input city_prompt ;;
  city <- search_city query ;;
  if negb (truthy city) then ret tt
  else report city.

End Program.
End Weather.

(** ** [testing.py]: the caller asks which city is meant *)

Module Testing.
Section Program.
Context `{Platform}.
Local Open Scope io_scope.

Definition geo_url (query : string) : string :=
  BASE_URI ++ "/geo/1.0/direct?q=" ++ quote query ++ "&limit=5".

Definition forecast_url (lat lon : json) : string :=
  BASE_URI ++ "/data/2.5/forecast?lat=" ++ py_str lat ++ "&lon=" ++ py_str lon
    ++ "&units=metric".

Definition no_city_found : string :=
  "No city found for that query, please try again.".
Definition which_city : string :=
  "Which city did you mean? Enter index:" ++ newline ++ "> ".
Definition invalid_choice : string := "Invalid choice, please try again.".

Definition search_city (query : string) : M json :=
  response <- requests_get_json (geo_url query) ;;
  if negb (truthy response) then ret JNull
  else ret response.

(** Lines 42 to 50: the body of the loop over the sampled indices. *)
Definition daily (forecasts : json) (i : Z) : result json :=
  (entry <- py_getitem_int forecasts i ;;
   dt_txt <- py_getitem_str entry "dt_txt" ;;
   date_str <- py_slice_to dt_txt 10 ;;
   weather <- py_getitem_str entry "weather" ;;
   first <- py_getitem_int weather 0 ;;
   text <- py_getitem_str first "description" ;;
   description <- py_title text ;;
   readings <- py_getitem_str entry "main" ;;
   temp <- py_getitem_str readings "temp_max" ;;
   Ok (JObj [("date", date_str); ("description", description); ("temp", temp)])
  )%result.

Definition weather_forecast (lat lon : json) : M json :=
  response <- requests_get_json (forecast_url lat lon) ;;
  forecasts <- lift (py_get response "list" (JArr [])) ;;
  n <- lift (py_len forecasts) ;;
  daily_forecast <- lift (collect (daily forecasts) (py_range 0 (Z.min n 40) 8)) ;;
  ret (JArr daily_forecast).

(** Lines 76 to 82: one line of the list of matches. *)
Definition menu_line (idx : Z) (city_info : json) : result string :=
  (country <- py_get city_info "country" (JStr "") ;;
   state <- py_get city_info "state" (JStr "") ;;
   name <- py_get city_info "name" (JStr "") ;;
   if truthy state && negb (py_eq state name)
   then Ok (py_str (JInt idx) ++ ". " ++ py_str name ++ ", " ++ py_str state
              ++ ", " ++ py_str country)
   else Ok (py_str (JInt idx) ++ ". " ++ py_str name ++ ", "
              ++ py_str country))%result.

(** Lines 86 to 90: what the loop does with the line it read. *)
Definition attempt (results : json) (choice : string) : result (option json) :=
  if str_isdigit choice then
    (index <- py_int choice ;;
     if 1 <=? index then
       (n <- py_len results ;;
        if index <=? n then
          (chosen_city <- py_getitem_int results (index - 1) ;;
           Ok (Some chosen_city))
        else Ok None)
     else Ok None)%result
  else Ok None.

(** Lines 69 to 91: from the matches to the chosen city. *)
Definition choose (results : json) : M json :=
  n <- lift (py_len results) ;;
  if n =? 1 then lift (py_getitem_int results 0)
  else
    print "Multiple matches found:" ;;
    cities <- lift (py_iter results) ;;
    for_each (fun '(idx, city_info) =>
                line <- lift (menu_line idx city_info) ;; print line)
             (enumerate 1 cities) ;;
    ask_until which_city invalid_choice (attempt results).

(** Line 103: one line of the forecast. *)
Definition day_line (day : json) : result string :=
  (date <- py_getitem_str day "date" ;;
   description <- py_getitem_str day "description" ;;
   temp <- py_getitem_str day "temp" ;;
   shown <- format_1f temp ;;
   Ok (py_str date ++ ": " ++ py_str description ++ " " ++ shown ++ degree ++ "C")
  )%result.

(** Lines 93 to 105: from the chosen city to the printed forecast. *)
Definition report (chosen_city : json) : M unit :=
  lat <- lift (py_getitem_str chosen_city "lat") ;;
  lon <- lift (py_getitem_str chosen_city "lon") ;;
  name <- lift (py_getitem_str chosen_city "name") ;;
  forecast_data <- weather_forecast lat lon ;;
  if truthy forecast_data then
    print ("Here's the weather in " ++ py_str name ++ ":") ;;
    days <- lift (py_iter forecast_data) ;;
    for_each (fun day => line <- lift (day_line day) ;; print line) days
  else
    print ("No forecast data found for " ++ py_str name ++ ".").

Definition main : M unit :=
  query <- input city_prompt ;;
  results <- search_city query ;;
  if negb (truthy results) then print no_city_found
  else
    chosen_city <- choose results ;;
    report chosen_city.

End Program.
End Testing.

(** The two variants. *)
Inductive variant : Set :=
| CalleeSide     (* weather.py *)
| CallerSide.    (* testing.py *)

Definition weather_forecast `{Platform} (v : variant) : json -> json -> M json :=
  match v with
  | CalleeSide => Weather.weather_forecast
  | CallerSide => Testing.weather_forecast
  end.

Definition forecast_url `{Platform} (lat lon : json) : string :=
  Weather.forecast_url lat lon.

(** *** Platforms to run the program on

    Titles by the ASCII letters alone, floats of at most three decimals
    printed as they stand, [.1f] by exact rounding, and a few services. *)

Definition ascii_lower (c : ascii) : ascii :=
  if between 65 90 (ord c) then chr (ord c + 32) else c.
Definition ascii_upper (c : ascii) : ascii :=
  if between 97 122 (ord c) then chr (ord c - 32) else c.
Definition ascii_cased (c : ascii) : bool :=
  between 65 90 (ord c) || between 97 122 (ord c).

(** [str.title] on ASCII text: a letter after an uncased character becomes
    a capital, a letter after a letter becomes small. *)
Fixpoint ascii_title (previous_is_cased : bool) (s : string) : string :=
  match s with
  | EmptyString => EmptyString
  | String c s' =>
      String (if previous_is_cased then ascii_lower c else ascii_upper c)
             (ascii_title (ascii_cased c) s')
  end.

Definition decimal (z : Z) : string := NilZero.string_of_int (Z.to_int z).

(** A number to the nearest tenth, ties to the even tenth, as [.1f] prints
    it; a negative number keeps its sign when it rounds to zero. *)
Definition tenths (q : Q) : Z :=
  let n := 10 * Qnum q in
  let d := Zpos (Qden q) in
  let f := n / d in
  let r := n mod d in
  if 2 * r <? d then f
  else if d <? 2 * r then f + 1
  else if Z.even f then f else f + 1.

Definition one_place (q : Q) : string :=
  let t := Z.abs (tenths q) in
  (if Qnum q <? 0 then "-" else "") ++ decimal (t / 10) ++ "." ++ decimal (t mod 10).

Definition demo_format_1f (v : json) : result string :=
  match v with
  | JFloat q => Ok (one_place q)
  | JInt z => Ok (one_place (inject_Z z))
  | JBool b => Ok (if b then "1.0" else "0.0")
  | JStr _ => Raise ValueError
  | _ => Raise TypeError
  end.

(** Floats with at most three decimals print as they stand. *)
Definition demo_repr (v : json) : string :=
  match v with
  | JFloat q =>
      let n := 1000 * Qnum q in
      let d := Zpos (Qden q) in
      if n mod d =? 0 then
        let m := Z.abs (n / d) in
        let frac := m mod 1000 in
        (if Qnum q <? 0 then "-" else "") ++ decimal (m / 1000) ++ "." ++
        (if frac mod 100 =? 0 then decimal (frac / 100)
         else if frac mod 10 =? 0 then
           (if frac <? 100 then "0" else "") ++ decimal (frac / 10)
         else (if frac <? 10 then "00" else if frac <? 100 then "0" else "")
                ++ decimal frac)
      else "<float>"
  | JArr _ => "<list>"
  | JObj _ => "<dict>"
  | _ => ""
  end.

Definition city (name state country : string) (lat lon : Q) : json :=
  JObj [("name", JStr name); ("lat", JFloat lat); ("lon", JFloat lon);
        ("country", JStr country); ("state", JStr state)].

Definition reading (dt_txt description : string) (temp_max : Q) : json :=
  JObj [("dt", JInt 0);
        ("main", JObj [("temp", JFloat temp_max); ("temp_max", JFloat temp_max)]);
        ("weather", JArr [JObj [("id", JInt 500); ("description", JStr description)]]);
        ("dt_txt", JStr dt_txt)].

Definition paris : json := city "Paris" "Ile-de-France" "FR" (48875 # 1000) (225 # 100).
Definition paris_texas : json := city "Paris" "Texas" "US" (33625 # 1000) (-955 # 10).
Definition luxembourg : json := city "Luxembourg" "Luxembourg" "LU" (495 # 10) (6125 # 1000).

Definition has_prefix (p s : string) : bool := String.eqb (prefix (String.length p) s) p.

(** Ten readings, three hours apart: the first and the ninth are sampled. *)
Definition ten_readings : list json :=
  [ reading "2025-01-29 12:00:00" "light rain" (65 # 10);
    reading "2025-01-29 15:00:00" "light rain" (7 # 1);
    reading "2025-01-29 18:00:00" "overcast clouds" (6 # 1);
    reading "2025-01-29 21:00:00" "overcast clouds" (5 # 1);
    reading "2025-01-30 00:00:00" "clear sky" (4 # 1);
    reading "2025-01-30 03:00:00" "clear sky" (3 # 1);
    reading "2025-01-30 06:00:00" "clear sky" (3 # 1);
    reading "2025-01-30 09:00:00" "few clouds" (5 # 1);
    reading "2025-01-30 12:00:00" "broken clouds" (825 # 100);
    reading "2025-01-30 15:00:00" "broken clouds" (9 # 1) ].

Definition is_forecast_url (url : string) : bool :=
  has_prefix (BASE_URI ++ "/data/2.5/forecast?") url.

Definition ten_readings_answer : json :=
  JObj [("cod", JStr "200"); ("cnt", JInt 10); ("list", JArr ten_readings)].

Definition platform_of (service : string -> json) : Platform := {|
  http_get_json := service;
  str_title := ascii_title false;
  repr := demo_repr;
  format_1f := demo_format_1f
|}.

(** Two cities called Paris, one Luxembourg, nothing else. *)
Definition demo : Platform :=
  platform_of (fun url =>
    if is_forecast_url url then ten_readings_answer
    else if String.eqb url (Weather.geo_url "Paris") then JArr [paris; paris_texas]
    else if String.eqb url (Weather.geo_url "Luxembourg") then JArr [luxembourg]
    else JArr []).

(** A service that answers every search with Luxembourg, the blank one
    too. *)
Definition generous : Platform :=
  platform_of (fun url =>
    if is_forecast_url url then ten_readings_answer else JArr [luxembourg]).

(** The same forecast from a service that knows no city. *)
Definition forecast_only : Platform :=
  platform_of (fun url =>
    if is_forecast_url url then ten_readings_answer else JNull).

(** A service that disregards the limit: six Springfields for every
    search. *)
Definition springfield (n : Z) : json :=
  city "Springfield" ("State " ++ decimal n) "US" (inject_Z (30 + n)) (inject_Z (- 90 - n)).

Definition crowded : Platform :=
  platform_of (fun url =>
    if is_forecast_url url then ten_readings_answer
    else JArr (map springfield [1; 2; 3; 4; 5; 6])).

(** The ten readings with the timestamp of the ninth lost, and a service
    that answers with them. *)
Definition late_gap : list json :=
  (firstn 8 ten_readings ++
   [JObj [("main", JObj [("temp_max", JFloat (825 # 100))]);
          ("weather", JArr [JObj [("description", JStr "broken clouds")]])]] ++
   skipn 9 ten_readings)%list.

Definition no_dates : Platform :=
  platform_of (fun _ => JObj [("list", JArr late_gap)]).

(** The ten readings with every reading not sampled replaced by [null] and
    five more after them; a service that has the ten readings for one
    place and these for every other. *)
Definition mostly_null : list json :=
  (map (fun k => match nth_error ten_readings k with
                 | Some entry => if (k mod 8 =? 0)%nat then entry else JNull
                 | None => JNull
                 end) (seq 0 10) ++ repeat JNull 5)%list.

Definition two_lists : Platform :=
  platform_of (fun url =>
    if String.eqb url (BASE_URI ++ "/data/2.5/forecast?lat=1&lon=2&units=metric")
    then JObj [("list", JArr ten_readings)]
    else JObj [("list", JArr mostly_null)]).

(** A reading with no conditions in its [weather], before the ten
    readings; a service that answers with them. *)
Definition no_conditions_list : list json :=
  JObj [("dt_txt", JStr "2025-01-29 09:00:00"); ("weather", JArr []);
        ("main", JObj [("temp_max", JFloat (6 # 1))])] :: ten_readings.

Definition no_conditions : Platform :=
  platform_of (fun _ => JObj [("list", JArr no_conditions_list)]).

(** A service whose answers have no list. *)
Definition no_list : Platform :=
  platform_of (fun _ => JObj [("cod", JStr "404"); ("message", JStr "city not found")]).

(** *** The reduction, apart from the request

    What [weather_forecast] computes from the answer it received (lines 78
    to 93 of [weather.py], 37 to 52 of [testing.py]). *)
Definition reduce `{Platform} (response : json) : result json :=
  (forecasts <- py_get response "list" (JArr []) ;;
   n <- py_len forecasts ;;
   daily_forecast <- collect (Weather.daily forecasts) (py_range 0 (Z.min n 40) 8) ;;
   Ok (JArr daily_forecast))%result.

(** An interval as the service documents it: a timestamp text, a list of
    conditions whose first has a description, and readings with a maximum
    temperature. *)
Definition entry_fields (entry : json) : option (string * string * json) :=
  match entry with
  | JObj fields =>
      match lookup "dt_txt" fields, lookup "weather" fields, lookup "main" fields with
      | Some (JStr dt_txt), Some (JArr (JObj first :: _)), Some (JObj readings) =>
          match lookup "description" first, lookup "temp_max" readings with
          | Some (JStr description), Some temp => Some (dt_txt, description, temp)
          | _, _ => None
          end
      | _, _, _ => None
      end
  | _ => None
  end.

(** The day the program makes of such an interval. *)
Definition summary `{Platform} (dt_txt description : string) (temp : json) : json :=
  JObj [("date", JStr (substring 0 10 dt_txt));
        ("description", JStr (str_title description));
        ("temp", temp)].

(** Where a day starts when every day has eight readings. *)
Definition sample_points : list Z := [0; 8; 16; 24; 32].

(** The prompts among the events, and a computation that reads no line and
    asks nothing. *)
Definition prompts (l : list event) : list string :=
  flat_map (fun e => match e with Prompt text => [text] | _ => [] end) l.

Definition quiet {A} (m : M A) : Prop :=
  forall stdin, rest (m stdin) = stdin /\ prompts (log (m stdin)) = [].

(** The character U+00B2, superscript two, alone on a line. *)
Definition superscript_two : string := String "178" EmptyString.

(** Two events that differ at most in the wording the two files chose: the
    message that turns a line down, and the colon that ends the line above
    the forecast. *)
Inductive same_event : event -> event -> Prop :=
| same_exact (e : event) : same_event e e
| same_turning_down :
    same_event (Print Weather.invalid_choice) (Print Testing.invalid_choice)
| same_header (name : string) :
    same_event (Print ("Here's the weather in " ++ name))
               (Print ("Here's the weather in " ++ name ++ ":")).

(** Two runs that end alike, leave the same lines unread and did the same
    things in the same order. *)
Definition agree {A} (callee caller : outcome A) : Prop :=
  res callee = res caller /\
  rest callee = rest caller /\
  Forall2 same_event (log callee) (log caller).

(** The requests and the printed lines among the events. *)
Definition gets (l : list event) : list string :=
  flat_map (fun e => match e with Get url => [url] | _ => [] end) l.

Definition prints (l : list event) : list string :=
  flat_map (fun e => match e with Print line => [line] | _ => [] end) l.

(** The last lines of either file,
<<
    while True:
        main()
>>
    for as many turns as [fuel] allows: a turn that raises ends the loop
    with its exception, a turn that returns is followed by the next.  The
    handler around the loop is for the interrupt from the keyboard, which
    is no event of this development; every other exception passes it. *)
Fixpoint forever (turn : M unit) (fuel : nat) (stdin : list string)
  : option (outcome unit) :=
  match fuel with
  | O => None
  | S fuel' =>
      let o := turn stdin in
      match res o with
      | Raise e => Some o
      | Ok _ =>
          match forever turn fuel' (rest o) with
          | Some o' => Some (Outcome (res o') (rest o') (log o ++ log o')%list)
          | None => None
          end
      end
  end.

(** A computation that sends no request. *)
Definition offline {A} (m : M A) : Prop :=
  forall stdin, gets (log (m stdin)) = [].

(** A computation that reads lines from the front of the input, and none
    without a prompt: it prompts once for every line it reads, and once
    more only when it ends for want of a line. *)
Definition asks_before_reading {A} (m : M A) : Prop :=
  forall stdin, exists used,
    stdin = (used ++ rest (m stdin))%list /\
    (length used <= length (prompts (log (m stdin))) <= length used + 1)%nat /\
    (forall a, res (m stdin) = Ok a ->
       length (prompts (log (m stdin))) = length used).

(** A value that is a dict. *)
Definition is_object (v : json) : bool :=
  match v with JObj _ => true | _ => false end.

(** The characters [quote] can put in a URL. *)
Definition quoted_char (c : ascii) : bool :=
  always_safe c || (ord c =? 47) || (ord c =? 37).

(** ** Facts about the Python layer *)

Lemma prefix_substring (n : nat) (s : string) : prefix n s = substring 0 n s.
Proof.
  revert s; induction n as [|n IH]; intros [|c s]; simpl; try reflexivity.
  now rewrite IH.
Qed.

Lemma collect_length {A B} (body : A -> result B) (xs : list A) (ys : list B) :
  collect body xs = Ok ys -> length ys = length xs.
Proof.
  revert ys; induction xs as [|x xs IH]; simpl; intros ys E.
  - now inversion E.
  - destruct (body x) as [y|e]; simpl in E; [|discriminate].
    destruct (collect body xs) as [ys'|e]; simpl in E; [|discriminate].
    inversion E; subst; simpl. now rewrite (IH ys' eq_refl).
Qed.

Lemma collect_nth {A B} (body : A -> result B) (xs : list A) (ys : list B)
    (k : nat) (x : A) :
  collect body xs = Ok ys -> nth_error xs k = Some x ->
  exists y, body x = Ok y /\ nth_error ys k = Some y.
Proof.
  revert ys k; induction xs as [|x0 xs IH]; simpl; intros ys k E N.
  - destruct k; discriminate.
  - destruct (body x0) as [y0|e] eqn:B0; simpl in E; [|discriminate].
    destruct (collect body xs) as [ys'|e]; simpl in E; [|discriminate].
    inversion E; subst. destruct k as [|k]; simpl in *.
    + inversion N; subst. now exists y0.
    + now apply IH.
Qed.

Lemma collect_total {A B} (body : A -> result B) (xs : list A) :
  (forall x, In x xs -> exists y, body x = Ok y) ->
  exists ys, collect body xs = Ok ys.
Proof.
  induction xs as [|x xs IH]; simpl; intros T.
  - now exists [].
  - destruct (T x (or_introl eq_refl)) as [y Ey].
    destruct IH as [ys Eys]; [intros; apply T; now right|].
    exists (y :: ys). now rewrite Ey, Eys.
Qed.

(** [range] with a positive step holds [start + k*step] for exactly the
    [k] that keep it below [stop]. *)
Lemma py_range_nth (start stop step : Z) (k : nat) :
  0 < step ->
  nth_error (py_range start stop step) k =
  if start + Z.of_nat k * step <? stop then Some (start + Z.of_nat k * step)
  else None.
Proof.
  intros Hs. unfold py_range.
  set (n := Z.to_nat ((stop - start + step - 1) / step)).
  assert (Hn : (k < n)%nat <-> start + Z.of_nat k * step < stop).
  { unfold n.
    pose proof (Z.div_mod (stop - start + step - 1) step ltac:(lia)) as D.
    pose proof (Z.mod_pos_bound (stop - start + step - 1) step Hs) as R.
    split; intros L.
    - assert (Z.of_nat k < (stop - start + step - 1) / step) by lia. nia.
    - assert (Z.of_nat k < (stop - start + step - 1) / step) by nia. lia. }
  destruct (start + Z.of_nat k * step <? stop) eqn:E.
  - apply Z.ltb_lt in E. apply Hn in E.
    rewrite nth_error_map, nth_error_seq.
    destruct (Nat.ltb_spec k n); [reflexivity | lia].
  - apply Z.ltb_ge in E.
    apply nth_error_None. rewrite length_map, length_seq.
    destruct (Nat.le_gt_cases n k) as [L|L]; [exact L|]. apply Hn in L. lia.
Qed.

Lemma py_range_In (start stop step i : Z) :
  0 < step ->
  In i (py_range start stop step) <->
  exists k : nat, i = start + Z.of_nat k * step /\ i < stop.
Proof.
  intros Hs. split.
  - intros I. apply In_nth_error in I as [k E].
    rewrite py_range_nth in E by exact Hs.
    destruct (start + Z.of_nat k * step <? stop) eqn:L; [|discriminate].
    inversion E; subst. apply Z.ltb_lt in L. now exists k.
  - intros [k [-> L]]. apply (nth_error_In _ k).
    rewrite py_range_nth by exact Hs.
    apply Z.ltb_lt in L. now rewrite L.
Qed.

Lemma py_range_length (stop : Z) :
  0 <= stop -> Z.of_nat (length (py_range 0 stop 8)) = (stop + 7) / 8.
Proof.
  intros Hs. unfold py_range. rewrite length_map, length_seq.
  replace (stop - 0 + 8 - 1) with (stop + 7) by lia.
  apply Z2Nat.id. apply Z.div_pos; lia.
Qed.

(** Below forty, the sampled indices are the sample points below the stop. *)
Lemma py_range_sample_points (stop : Z) :
  0 <= stop <= 40 ->
  py_range 0 stop 8 = filter (fun i => i <? stop) sample_points.
Proof.
  intros Hs. unfold py_range, sample_points.
  replace (stop - 0 + 8 - 1) with (stop + 7) by lia.
  pose proof (Z.div_mod (stop + 7) 8 ltac:(lia)) as D.
  pose proof (Z.mod_pos_bound (stop + 7) 8 ltac:(lia)) as R.
  set (c := (stop + 7) / 8) in *.
  assert (C : c = 0 \/ c = 1 \/ c = 2 \/ c = 3 \/ c = 4 \/ c = 5) by lia.
  simpl filter.
  destruct C as [C|[C|[C|[C|[C|C]]]]]; rewrite C in *; simpl;
    repeat match goal with
           | |- context [?a <? stop] => destruct (Z.ltb_spec a stop)
           end;
    try reflexivity; lia.
Qed.

Ltac run_io :=
  unfold bind, lift, ret, print, requests_get_json; simpl.

Lemma weather_forecast_run `{Platform} (v : variant) (lat lon : json)
    (stdin : list string) :
  weather_forecast v lat lon stdin =
  Outcome (reduce (http_get_json (forecast_url lat lon))) stdin
          [Get (forecast_url lat lon)].
Proof.
  destruct v;
    unfold weather_forecast, Weather.weather_forecast, Testing.weather_forecast,
      reduce, forecast_url;
    change (Testing.forecast_url lat lon) with (Weather.forecast_url lat lon);
    change Testing.daily with Weather.daily;
    run_io;
    destruct (py_get (http_get_json (Weather.forecast_url lat lon)) "list" (JArr []))
      as [forecasts|e]; simpl; try reflexivity;
    destruct (py_len forecasts) as [n|e]; simpl; try reflexivity;
    destruct (collect (Weather.daily forecasts) (py_range 0 (Z.min n 40) 8));
    reflexivity.
Qed.

Lemma seq_getitem_nth {A} (l : list A) (i : Z) (x : A) :
  0 <= i -> nth_error l (Z.to_nat i) = Some x -> seq_getitem l i = Ok x.
Proof.
  intros Hi N. unfold seq_getitem.
  assert (L : (Z.to_nat i < length l)%nat) by (apply nth_error_Some; congruence).
  destruct (Z.ltb_spec i 0); [lia|].
  destruct (Z.leb_spec 0 i); [|lia].
  destruct (Z.ltb_spec i (Z.of_nat (length l))); [|lia].
  simpl. now rewrite N.
Qed.

Lemma daily_of_fields `{Platform} (entries : list json) (i : Z) (entry : json)
    (dt_txt description : string) (temp : json) :
  0 <= i -> nth_error entries (Z.to_nat i) = Some entry ->
  entry_fields entry = Some (dt_txt, description, temp) ->
  Weather.daily (JArr entries) i = Ok (summary dt_txt description temp).
Proof.
  intros Hi N F. unfold Weather.daily. simpl.
  rewrite (seq_getitem_nth _ _ _ Hi N). simpl.
  unfold entry_fields in F.
  repeat match type of F with
         | match ?x with _ => _ end = _ => destruct x eqn:?; try discriminate
         end.
  inversion F; subst. simpl.
  repeat match goal with E : lookup _ _ = Some _ |- _ => rewrite E; clear E end.
  simpl.
  repeat match goal with E : lookup _ _ = Some _ |- _ => rewrite E; clear E end.
  simpl. unfold summary. rewrite <- prefix_substring. reflexivity.
Qed.

(** ** The forecast *)

(** C7.  A response without the list field gives the empty sequence, and no
    exception: the request is the only thing that happened. *)
Theorem forecast_without_list `{Platform} (v : variant) (lat lon : json)
    (stdin : list string) (fields : list (string * json)) :
  http_get_json (forecast_url lat lon) = JObj fields ->
  lookup "list" fields = None ->
  weather_forecast v lat lon stdin =
  Outcome (Ok (JArr [])) stdin [Get (forecast_url lat lon)].
Proof.
  intros R L. rewrite weather_forecast_run, R.
  unfold reduce. simpl. now rewrite L.
Qed.

Lemma forecast_without_list_witness :
  @weather_forecast no_list CalleeSide (JFloat (495 # 10)) (JFloat (6125 # 1000)) ["next"] =
  Outcome (Ok (JArr [])) ["next"]
    [Get "https://weather.lewagon.com/data/2.5/forecast?lat=49.5&lon=6.125&units=metric"].
Proof.
  exact (@forecast_without_list no_list CalleeSide (JFloat (495 # 10))
           (JFloat (6125 # 1000)) ["next"]
           [("cod", JStr "404"); ("message", JStr "city not found")] eq_refl eq_refl).
Defined.

Lemma seq_getitem_in_bounds {A} (l : list A) (i : Z) :
  0 <= i < Z.of_nat (length l) ->
  exists x, nth_error l (Z.to_nat i) = Some x /\ seq_getitem l i = Ok x.
Proof.
  intros B.
  destruct (nth_error l (Z.to_nat i)) as [x|] eqn:N.
  - exists x. split; [reflexivity|]. apply seq_getitem_nth; [lia | exact N].
  - apply nth_error_None in N. lia.
Qed.

Lemma chars_length (s : string) : length (chars s) = String.length s.
Proof. induction s as [|c s IH]; simpl; [reflexivity | now rewrite IH]. Qed.

(** An interval the service documents gives its day, whatever the index. *)
Lemma reduce_documented `{Platform} (entries : list json) :
  (forall k entry, (k < 5)%nat -> nth_error entries (8 * k) = Some entry ->
                   entry_fields entry <> None) ->
  exists days,
    collect (Weather.daily (JArr entries))
            (py_range 0 (Z.min (Z.of_nat (length entries)) 40) 8) = Ok days.
Proof.
  intros W. apply collect_total. intros i I.
  apply py_range_In in I as [k [-> L]]; [|lia].
  assert (K : (k < 5)%nat) by lia.
  assert (B : (8 * k < length entries)%nat) by lia.
  destruct (nth_error entries (8 * k)) as [entry|] eqn:N;
    [|apply nth_error_None in N; lia].
  destruct (entry_fields entry) as [[[dt_txt description] temp]|] eqn:F;
    [|now destruct (W k entry K N)].
  exists (summary dt_txt description temp).
  apply (daily_of_fields entries _ entry); [lia | | exact F].
  replace (Z.to_nat (0 + Z.of_nat k * 8)) with (8 * k)%nat by lia. exact N.
Qed.

Lemma reduce_list `{Platform} (response : json) (entries : list json) :
  py_get response "list" (JArr []) = Ok (JArr entries) ->
  reduce response =
  match collect (Weather.daily (JArr entries))
                (py_range 0 (Z.min (Z.of_nat (length entries)) 40) 8) with
  | Ok days => Ok (JArr days)
  | Raise e => Raise e
  end.
Proof. intros G. unfold reduce. rewrite G. reflexivity. Qed.

(** C1.  With [L] intervals in the list (none when the field is missing),
    the forecast has as many days as there are sample points below
    [min(L, 40)]: that is [ceil(min(L, 40) / 8)], at most five, and none when
    [L = 0].  The call returns as soon as the sampled intervals are as the
    service documents them. *)
Theorem forecast_length `{Platform} (v : variant) (lat lon : json)
    (stdin : list string) (entries : list json) :
  py_get (http_get_json (forecast_url lat lon)) "list" (JArr []) = Ok (JArr entries) ->
  let L := Z.of_nat (length entries) in
  let forecast := res (weather_forecast v lat lon stdin) in
  ((forall k entry, (k < 5)%nat -> nth_error entries (8 * k) = Some entry ->
                    entry_fields entry <> None) ->
   exists days, forecast = Ok (JArr days)) /\
  (forall out, forecast = Ok out ->
     exists days, out = JArr days /\
       length days = length (filter (fun i => i <? Z.min L 40) sample_points) /\
       Z.of_nat (length days) = (Z.min L 40 + 7) / 8 /\
       (length days <= 5)%nat /\
       (L = 0 -> days = [])).
Proof.
  intros G L forecast. subst forecast.
  rewrite weather_forecast_run. simpl. rewrite (reduce_list _ _ G). fold L.
  split.
  - intros W. destruct (reduce_documented entries W) as [days E].
    fold L in E. rewrite E. now exists days.
  - intros out E.
    destruct (collect _ _) as [days|e] eqn:C; [|discriminate].
    inversion E; subst out. exists days. split; [reflexivity|].
    apply collect_length in C.
    assert (R : 0 <= Z.min L 40 <= 40) by lia.
    assert (Len : Z.of_nat (length days) = (Z.min L 40 + 7) / 8)
      by (rewrite C; apply py_range_length; lia).
    assert (D : (Z.min L 40 + 7) / 8 <= 5).
    { apply Z.lt_succ_r. apply Z.div_lt_upper_bound; lia. }
    repeat split.
    + rewrite C. now rewrite py_range_sample_points.
    + exact Len.
    + lia.
    + intros Z0. rewrite Z0 in Len.
      replace ((Z.min 0 40 + 7) / 8) with 0 in Len by reflexivity.
      destruct days; [reflexivity | cbn [length] in Len; lia].
Qed.

Lemma ten_readings_documented (k : nat) (entry : json) :
  (k < 5)%nat -> nth_error ten_readings (8 * k) = Some entry ->
  entry_fields entry <> None.
Proof.
  intros K N. destruct k as [|[|k]]; simpl in N.
  - inversion N; discriminate.
  - inversion N; discriminate.
  - do 3 (destruct k as [|k]; [discriminate|]). lia.
Qed.

Lemma forecast_length_witness :
  (exists days,
     res (@weather_forecast demo CallerSide (JFloat (495 # 10)) (JFloat (6125 # 1000)) ["next"]) = Ok (JArr days)) /\
  (forall out,
     res (@weather_forecast demo CallerSide (JFloat (495 # 10)) (JFloat (6125 # 1000)) ["next"]) = Ok out ->
     exists days, out = JArr days /\
       length days = length (filter (fun i => i <? Z.min 10 40) sample_points) /\
       Z.of_nat (length days) = (Z.min 10 40 + 7) / 8 /\
       (length days <= 5)%nat /\
       (10 = 0 -> days = [])).
Proof.
  destruct (@forecast_length demo CallerSide (JFloat (495 # 10)) (JFloat (6125 # 1000))
              ["next"] ten_readings eq_refl)
    as [T P].
  split; [|exact P].
  apply T. exact ten_readings_documented.
Defined.

(** C2.  The day number [k] is made of the interval at index [8k], in the
    order of the list: its date is the first ten characters of [dt_txt],
    its description the title-cased description of the first condition,
    its temperature [main.temp_max]; and there are no other days. *)
Theorem forecast_entries `{Platform} (v : variant) (lat lon : json)
    (stdin : list string) (entries : list json) :
  py_get (http_get_json (forecast_url lat lon)) "list" (JArr []) = Ok (JArr entries) ->
  (forall k entry, (k < 5)%nat -> nth_error entries (8 * k) = Some entry ->
                   entry_fields entry <> None) ->
  exists days,
    res (weather_forecast v lat lon stdin) = Ok (JArr days) /\
    (forall k : nat,
       Z.of_nat (8 * k) < Z.min (Z.of_nat (length entries)) 40 ->
       exists entry dt_txt description temp,
         nth_error entries (8 * k) = Some entry /\
         entry_fields entry = Some (dt_txt, description, temp) /\
         nth_error days k = Some (summary dt_txt description temp)) /\
    (forall k : nat,
       nth_error days k <> None ->
       Z.of_nat (8 * k) < Z.min (Z.of_nat (length entries)) 40).
Proof.
  intros G W.
  rewrite weather_forecast_run. simpl. rewrite (reduce_list _ _ G).
  destruct (reduce_documented entries W) as [days C]. rewrite C.
  exists days. split; [reflexivity|]. split.
  - intros k L.
    assert (R : nth_error (py_range 0 (Z.min (Z.of_nat (length entries)) 40) 8) k
                = Some (0 + Z.of_nat k * 8)).
    { rewrite py_range_nth by lia.
      destruct (Z.ltb_spec (0 + Z.of_nat k * 8) (Z.min (Z.of_nat (length entries)) 40));
        [reflexivity | lia]. }
    destruct (collect_nth _ _ _ _ _ C R) as [day [D N]].
    assert (B : (8 * k < length entries)%nat) by lia.
    destruct (nth_error entries (8 * k)) as [entry|] eqn:E;
      [|apply nth_error_None in E; lia].
    assert (K : (k < 5)%nat) by lia.
    destruct (entry_fields entry) as [[[dt_txt description] temp]|] eqn:F;
      [|now destruct (W k entry K E)].
    exists entry, dt_txt, description, temp. repeat split; try assumption.
    rewrite N. f_equal.
    assert (D' : Weather.daily (JArr entries) (0 + Z.of_nat k * 8)
                 = Ok (summary dt_txt description temp)).
    { apply (daily_of_fields entries _ entry); [lia | | exact F].
      replace (Z.to_nat (0 + Z.of_nat k * 8)) with (8 * k)%nat by lia. exact E. }
    congruence.
  - intros k N. apply nth_error_Some in N.
    rewrite (collect_length _ _ _ C) in N.
    assert (S : nth_error (py_range 0 (Z.min (Z.of_nat (length entries)) 40) 8) k
                <> None) by (apply nth_error_Some; exact N).
    rewrite py_range_nth in S by lia.
    destruct (Z.ltb_spec (0 + Z.of_nat k * 8) (Z.min (Z.of_nat (length entries)) 40));
      [lia | congruence].
Qed.

Lemma forecast_entries_witness :
  exists days,
    res (@weather_forecast demo CalleeSide (JFloat (495 # 10)) (JFloat (6125 # 1000)) [])
    = Ok (JArr days) /\
    (forall k : nat,
       Z.of_nat (8 * k) < Z.min (Z.of_nat (length ten_readings)) 40 ->
       exists entry dt_txt description temp,
         nth_error ten_readings (8 * k) = Some entry /\
         entry_fields entry = Some (dt_txt, description, temp) /\
         nth_error days k = Some (@summary demo dt_txt description temp)) /\
    (forall k : nat,
       nth_error days k <> None ->
       Z.of_nat (8 * k) < Z.min (Z.of_nat (length ten_readings)) 40).
Proof.
  exact (@forecast_entries demo CalleeSide (JFloat (495 # 10)) (JFloat (6125 # 1000))
           [] ten_readings eq_refl ten_readings_documented).
Defined.

(** What the program prints for the ten readings: two days, the first and
    the ninth reading. *)
Example forecast_of_ten_readings :
  res (@weather_forecast demo CalleeSide (JFloat (495 # 10)) (JFloat (6125 # 1000)) []) =
  Ok (JArr [ JObj [("date", JStr "2025-01-29"); ("description", JStr "Light Rain");
                   ("temp", JFloat (65 # 10))];
             JObj [("date", JStr "2025-01-30"); ("description", JStr "Broken Clouds");
                   ("temp", JFloat (825 # 100))] ]).
Proof. reflexivity. Qed.

(** The indices of [range(0, min(n, 40), 8)] are below [n]: indexing a
    list of [n] items with one of them yields the item there. *)
Lemma range_index_in_bounds (entries : list json) (i : Z) :
  In i (py_range 0 (Z.min (Z.of_nat (length entries)) 40) 8) ->
  0 <= i < Z.of_nat (length entries) /\
  exists entry, nth_error entries (Z.to_nat i) = Some entry /\
                py_getitem_int (JArr entries) i = Ok entry.
Proof.
  intros I. apply py_range_In in I as [k [-> B]]; [|lia].
  assert (R : 0 <= 0 + Z.of_nat k * 8 < Z.of_nat (length entries)) by lia.
  split; [exact R|]. apply seq_getitem_in_bounds. exact R.
Qed.

Lemma collect_ext {A B} (f g : A -> result B) (xs : list A) :
  (forall x, f x = g x) -> collect f xs = collect g xs.
Proof.
  intros E. induction xs as [|x xs IH]; simpl; [reflexivity|].
  now rewrite E, IH.
Qed.

Lemma reduce_ext (P1 P2 : Platform) (response : json) :
  (forall s, @str_title P1 s = @str_title P2 s) ->
  @reduce P1 response = @reduce P2 response.
Proof.
  intros T. unfold reduce.
  destruct (py_get response "list" (JArr [])) as [forecasts|e]; simpl; [|reflexivity].
  destruct (py_len forecasts) as [n|e]; simpl; [|reflexivity].
  rewrite (collect_ext (@Weather.daily P1 forecasts) (@Weather.daily P2 forecasts));
    [reflexivity|].
  intros i. unfold Weather.daily.
  repeat match goal with
         | |- result_bind ?r _ = result_bind ?r _ =>
             destruct r; simpl; [|reflexivity]
         end.
  match goal with
  | |- result_bind (py_title ?text) _ = _ =>
      destruct text; simpl; try reflexivity; now rewrite T
  end.
Qed.

(** C9.  The forecast is a function of the coordinates and of the answer to
    the one request: two calls that get the same answer return the same,
    whichever variant runs, whatever waits on the input and whatever else
    the service would say. *)
Theorem forecast_deterministic (P1 P2 : Platform) (v1 v2 : variant)
    (lat lon : json) (stdin1 stdin2 : list string) :
  @http_get_json P1 (@forecast_url P1 lat lon) =
  @http_get_json P2 (@forecast_url P2 lat lon) ->
  (forall s, @str_title P1 s = @str_title P2 s) ->
  res (@weather_forecast P1 v1 lat lon stdin1) =
  res (@weather_forecast P2 v2 lat lon stdin2).
Proof.
  intros Same T. rewrite !weather_forecast_run. simpl.
  rewrite Same. apply reduce_ext. exact T.
Qed.

Lemma forecast_deterministic_witness :
  res (@weather_forecast demo CalleeSide (JFloat (495 # 10)) (JFloat (6125 # 1000))
         ["Paris"; "2"]) =
  res (@weather_forecast forecast_only CallerSide (JFloat (495 # 10))
         (JFloat (6125 # 1000)) []).
Proof.
  exact (forecast_deterministic demo forecast_only CalleeSide CallerSide
           (JFloat (495 # 10)) (JFloat (6125 # 1000)) ["Paris"; "2"] []
           eq_refl (fun s => eq_refl)).
Defined.

(** ** The search *)

Lemma outcome_eta {A} (o : outcome A) : Outcome (res o) (rest o) (log o) = o.
Proof. now destruct o. Qed.

Lemma truthy_strip (query : string) :
  truthy (JStr (strip query)) = negb (String.eqb (strip query) "").
Proof. reflexivity. Qed.

Lemma Testing_search_city_run `{Platform} (query : string) (stdin : list string) :
  Testing.search_city query stdin =
  Outcome (Ok (if truthy (http_get_json (Testing.geo_url query))
               then http_get_json (Testing.geo_url query) else JNull))
          stdin [Get (Testing.geo_url query)].
Proof.
  unfold Testing.search_city. run_io.
  now destruct (truthy (http_get_json (Testing.geo_url query))).
Qed.

(** C6.  A query that is empty once trimmed: the callee-side [search_city]
    says so and returns [None] without a request; the caller-side one sends
    the request all the same and returns [None] exactly when the answer is
    empty. *)
Theorem blank_query `{Platform} (query : string) (stdin : list string) :
  strip query = "" ->
  Weather.search_city query stdin =
    Outcome (Ok JNull) stdin [Print "No city name provided, please try again."] /\
  Testing.search_city query stdin =
    Outcome (Ok (if truthy (http_get_json (Testing.geo_url query))
                 then http_get_json (Testing.geo_url query) else JNull))
            stdin
            [Get (BASE_URI ++ "/geo/1.0/direct?q=" ++ quote query ++ "&limit=5")].
Proof.
  intros B. split.
  - unfold Weather.search_city. rewrite truthy_strip, B. reflexivity.
  - apply Testing_search_city_run.
Qed.

Lemma blank_query_witness :
  @Weather.search_city generous "  " ["next"] =
    Outcome (Ok JNull) ["next"] [Print "No city name provided, please try again."] /\
  @Testing.search_city generous "  " ["next"] =
    Outcome (Ok (JArr [luxembourg])) ["next"]
            [Get "https://weather.lewagon.com/geo/1.0/direct?q=%20%20&limit=5"].
Proof.
  exact (@blank_query generous "  " ["next"] eq_refl).
Defined.

(** What trimming leaves is empty exactly when every character is white
    space. *)
Lemma lstrip_empty (s : string) :
  lstrip s = "" <-> forallb isspace (chars s) = true.
Proof.
  induction s as [|c s IH]; simpl; [tauto|].
  destruct (isspace c); simpl; [exact IH|]. split; discriminate.
Qed.

Lemma lstrip_blank_or_not (s : string) :
  lstrip s = "" \/ exists c t, lstrip s = String c t /\ isspace c = false.
Proof.
  induction s as [|c s IH]; simpl; [now left|].
  destruct (isspace c) eqn:E; [exact IH|]. right. now exists c, s.
Qed.

Lemma chars_of_chars (l : list ascii) : chars (str_of_chars l) = l.
Proof. apply list_ascii_of_string_of_list_ascii. Qed.

Lemma reverse_empty (s : string) : reverse s = "" <-> s = "".
Proof.
  unfold reverse. split; intros E; [|now subst].
  assert (R : rev (chars s) = []).
  { rewrite <- (chars_of_chars (rev (chars s))). now rewrite E. }
  destruct s as [|c s]; [reflexivity|]. simpl in R.
  now destruct (rev (chars s)).
Qed.

Lemma forallb_reversed {A} (f : A -> bool) (l : list A) :
  forallb f (rev l) = true <-> forallb f l = true.
Proof.
  rewrite !forallb_forall. split; intros F x I; apply F.
  - now apply in_rev in I.
  - now apply in_rev.
Qed.

Lemma rstrip_empty (s : string) :
  rstrip s = "" <-> forallb isspace (chars s) = true.
Proof.
  unfold rstrip. rewrite reverse_empty, lstrip_empty.
  unfold reverse. rewrite chars_of_chars. apply forallb_reversed.
Qed.

Lemma strip_empty (s : string) :
  strip s = "" <-> forallb isspace (chars s) = true.
Proof.
  unfold strip. rewrite rstrip_empty. split.
  - intros A. destruct (lstrip_blank_or_not s) as [E|[c [t [E W]]]].
    + now apply lstrip_empty.
    + rewrite E in A. simpl in A. rewrite W in A. discriminate.
  - intros A. apply lstrip_empty in A. now rewrite A.
Qed.

Lemma bind_res_ok {A B} (m : M A) (k : A -> M B) (stdin : list string) (b : B) :
  res (bind m k stdin) = Ok b ->
  exists a, res (m stdin) = Ok a /\ res (k a (rest (m stdin))) = Ok b.
Proof.
  unfold bind. destruct (res (m stdin)) as [a|e]; simpl; [|discriminate].
  intros E. now exists a.
Qed.

Lemma seq_getitem_ok {A} (l : list A) (i : Z) (x : A) :
  0 <= i -> seq_getitem l i = Ok x -> nth_error l (Z.to_nat i) = Some x.
Proof.
  intros Hi. unfold seq_getitem.
  destruct (Z.ltb_spec i 0); [lia|].
  destruct ((0 <=? i) && (i <? Z.of_nat (length l))); [|discriminate].
  destruct (nth_error l (Z.to_nat i)); [|discriminate]. congruence.
Qed.

(** A line gets a city out of the loop exactly when it is a digit string
    whose value [k] is between 1 and the number of matches; the city is
    then match number [k]. *)
Lemma attempt_chosen (cities : list json) (line : string) (city : json) :
  Weather.attempt (JArr cities) line = Ok (Some city) <->
  str_isdigit line = true /\
  exists k, py_int line = Ok k /\ 1 <= k <= Z.of_nat (length cities) /\
            nth_error cities (Z.to_nat (k - 1)) = Some city.
Proof.
  unfold Weather.attempt. destruct (str_isdigit line).
  2:{ split; [discriminate | intros [D _]; discriminate]. }
  destruct (py_int line) as [k|e]; simpl.
  2:{ split; [discriminate | intros [_ [k [E _]]]; discriminate]. }
  destruct (Z.leb_spec 1 k); simpl.
  2:{ split; [discriminate | intros [_ [k' [E [B _]]]]; inversion E; lia]. }
  destruct (Z.leb_spec k (Z.of_nat (length cities))); simpl.
  2:{ split; [discriminate | intros [_ [k' [E [B _]]]]; inversion E; lia]. }
  destruct (seq_getitem_in_bounds cities (k - 1) ltac:(lia)) as [c [N G]].
  rewrite G. simpl. split.
  - intros E. inversion E; subst. split; [reflexivity|]. exists k. repeat split; assumption || lia.
  - intros [_ [k' [E [_ N']]]]. inversion E; subst. congruence.
Qed.

Lemma ask_until_ok {A} (prompt invalid : string)
    (attempt : string -> result (option A)) (stdin : list string) (a : A) :
  res (ask_until prompt invalid attempt stdin) = Ok a ->
  exists line, In line stdin /\ attempt line = Ok (Some a).
Proof.
  induction stdin as [|line stdin IH]; simpl; [discriminate|].
  destruct (attempt line) as [[x|]|e] eqn:E; simpl.
  - intros R. inversion R; subst. exists line. split; [now left | exact E].
  - intros R. destruct (IH R) as [l [I Q]]. exists l. split; [now right | exact Q].
  - discriminate.
Qed.

Lemma Weather_choose_member `{Platform} (cities : list json) (stdin : list string)
    (city : json) :
  res (Weather.choose (JArr cities) stdin) = Ok city -> In city cities.
Proof.
  unfold Weather.choose. intros R.
  apply bind_res_ok in R as [n [Len R]]. simpl in Len. inversion Len; subst n.
  destruct (Z.of_nat (length cities) =? 1).
  - simpl in R. unfold lift in R. simpl in R.
    apply seq_getitem_ok in R; [|lia]. now apply nth_error_In in R.
  - apply bind_res_ok in R as [printed [_ R]].
    apply bind_res_ok in R as [listed [_ R]].
    apply bind_res_ok in R as [shown [_ R]].
    apply ask_until_ok in R as [line [_ Q]].
    apply attempt_chosen in Q as [_ [k [_ [_ N]]]].
    now apply nth_error_In in N.
Qed.

Lemma Weather_search_city_nonblank `{Platform} (query : string) (stdin : list string) :
  strip query <> "" ->
  Weather.search_city query stdin =
  if truthy (http_get_json (Weather.geo_url query)) then
    let chosen := Weather.choose (http_get_json (Weather.geo_url query)) stdin in
    Outcome (res chosen) (rest chosen) (Get (Weather.geo_url query) :: log chosen)
  else
    Outcome (Ok JNull) stdin [Get (Weather.geo_url query); Print Weather.no_city_found].
Proof.
  intros N. unfold Weather.search_city. rewrite truthy_strip.
  apply String.eqb_neq in N. rewrite N. simpl. run_io.
  destruct (truthy (http_get_json (Weather.geo_url query))); simpl; [|reflexivity].
  destruct (res (Weather.choose _ stdin)); reflexivity.
Qed.

(** C3, as the code has it.  The caller-side [search_city] asks for at most
    five matches and returns [None] exactly when the list that came back is
    empty, and otherwise that very list: same items, same order, same
    length.  Nothing in the program shortens it: it has at most five items
    when the service kept to the limit it was asked for.  The callee-side
    [search_city], for a query that is not blank, returns [None] on the
    empty list and otherwise one of the matches, not the list. *)
Theorem resolve_returns_the_matches `{Platform} (query : string)
    (stdin : list string) (cities : list json) :
  http_get_json (Testing.geo_url query) = JArr cities ->
  let resolved := Testing.search_city query stdin in
  log resolved = [Get (BASE_URI ++ "/geo/1.0/direct?q=" ++ quote query ++ "&limit=5")] /\
  rest resolved = stdin /\
  (res resolved = Ok JNull <-> cities = []) /\
  (cities <> [] -> res resolved = Ok (JArr cities)) /\
  (forall matches, res resolved = Ok (JArr matches) ->
     matches = cities /\
     ((length cities <= 5)%nat -> (length matches <= 5)%nat)) /\
  (strip query <> "" ->
     (cities = [] -> res (Weather.search_city query stdin) = Ok JNull) /\
     (forall city, cities <> [] ->
        res (Weather.search_city query stdin) = Ok city -> In city cities)).
Proof.
  intros Payload resolved. subst resolved.
  rewrite Testing_search_city_run, Payload. simpl.
  split; [reflexivity|]. split; [reflexivity|].
  split; [destruct cities; simpl; split; intros E; congruence|].
  split; [destruct cities; simpl; intros E; congruence|].
  split.
  - intros matches M. destruct cities; simpl in M; [discriminate|].
    inversion M; subst. split; [reflexivity | trivial].
  - intros NB. rewrite Weather_search_city_nonblank by assumption.
    change (Weather.geo_url query) with (Testing.geo_url query).
    rewrite Payload. split.
    + intros ->. reflexivity.
    + intros city NE R. destruct cities as [|c cs]; [contradiction|].
      change (truthy (JArr (c :: cs))) with true in R. cbv beta iota zeta in R.
      cbn [res] in R. now apply Weather_choose_member in R.
Qed.

Lemma resolve_returns_the_matches_witness :
  log (@Testing.search_city demo "Paris" ["2"]) =
    [Get "https://weather.lewagon.com/geo/1.0/direct?q=Paris&limit=5"] /\
  rest (@Testing.search_city demo "Paris" ["2"]) = ["2"] /\
  (res (@Testing.search_city demo "Paris" ["2"]) = Ok JNull <-> [paris; paris_texas] = []) /\
  ([paris; paris_texas] <> [] ->
   res (@Testing.search_city demo "Paris" ["2"]) = Ok (JArr [paris; paris_texas])) /\
  (forall matches, res (@Testing.search_city demo "Paris" ["2"]) = Ok (JArr matches) ->
     matches = [paris; paris_texas] /\
     ((length [paris; paris_texas] <= 5)%nat -> (length matches <= 5)%nat)) /\
  (strip "Paris" <> "" ->
     ([paris; paris_texas] = [] -> res (@Weather.search_city demo "Paris" ["2"]) = Ok JNull) /\
     (forall city, [paris; paris_texas] <> [] ->
        res (@Weather.search_city demo "Paris" ["2"]) = Ok city ->
        In city [paris; paris_texas])).
Proof.
  exact (@resolve_returns_the_matches demo "Paris" ["2"] [paris; paris_texas] eq_refl).
Defined.

(** C3, as the claim has it, fails where the service sends more than it
    was asked for: six matches come back as six.  And the callee-side
    [search_city] returns a city, not the list of them. *)
Lemma six_matches_come_back :
  exists matches,
    res (@Testing.search_city crowded "Springfield" []) = Ok (JArr matches) /\
    matches = map springfield [1; 2; 3; 4; 5; 6] /\
    (5 < length matches)%nat /\
    res (@Weather.search_city demo "Paris" ["2"]) = Ok paris_texas.
Proof.
  exists (map springfield [1; 2; 3; 4; 5; 6]).
  split; [reflexivity|]. split; [reflexivity|]. split; [simpl; lia | reflexivity].
Qed.

Lemma bind_Ok {A B} (m : M A) (k : A -> M B) (stdin : list string)
    (a : A) (s : list string) (l : list event) :
  m stdin = Outcome (Ok a) s l ->
  bind m k stdin = Outcome (res (k a s)) (rest (k a s)) (l ++ log (k a s))%list.
Proof. intros E. unfold bind. now rewrite E. Qed.

Lemma bind_Raise {A B} (m : M A) (k : A -> M B) (stdin : list string)
    (e : exn) (s : list string) (l : list event) :
  m stdin = Outcome (Raise e) s l ->
  bind m k stdin = Outcome (Raise e) s l.
Proof. intros E. unfold bind. now rewrite E. Qed.

Lemma bind_run {A B} (m : M A) (k : A -> M B) (stdin : list string) :
  bind m k stdin =
  match res (m stdin) with
  | Ok a =>
      Outcome (res (k a (rest (m stdin)))) (rest (k a (rest (m stdin))))
              (log (m stdin) ++ log (k a (rest (m stdin))))%list
  | Raise e => Outcome (Raise e) (rest (m stdin)) (log (m stdin))
  end.
Proof. reflexivity. Qed.

(** One turn of either [main], opened up. *)
Lemma Testing_main_run `{Platform} (query : string) (stdin : list string) :
  Testing.main (query :: stdin) =
  let url := Testing.geo_url query in
  if truthy (http_get_json url) then
    let chosen := Testing.choose (http_get_json url) stdin in
    match res chosen with
    | Ok chosen_city =>
        let shown := Testing.report chosen_city (rest chosen) in
        Outcome (res shown) (rest shown)
                (Prompt city_prompt :: Get url :: log chosen ++ log shown)%list
    | Raise e =>
        Outcome (Raise e) (rest chosen) (Prompt city_prompt :: Get url :: log chosen)
    end
  else Outcome (Ok tt) stdin
         [Prompt city_prompt; Get url; Print Testing.no_city_found].
Proof.
  unfold Testing.main.
  rewrite (bind_Ok _ _ _ query stdin [Prompt city_prompt]) by reflexivity.
  rewrite (bind_Ok _ _ _ _ _ _ (Testing_search_city_run query stdin)).
  cbv zeta.
  destruct (truthy (http_get_json (Testing.geo_url query))) eqn:T.
  - rewrite T. cbn [negb]. rewrite bind_run.
    destruct (res (Testing.choose _ stdin)); reflexivity.
  - reflexivity.
Qed.

Lemma Weather_main_run `{Platform} (query : string) (stdin : list string) :
  strip query <> "" ->
  Weather.main (query :: stdin) =
  let url := Weather.geo_url query in
  if truthy (http_get_json url) then
    let chosen := Weather.choose (http_get_json url) stdin in
    match res chosen with
    | Ok city =>
        if truthy city then
          let shown := Weather.report city (rest chosen) in
          Outcome (res shown) (rest shown)
                  (Prompt city_prompt :: Get url :: log chosen ++ log shown)%list
        else
          Outcome (Ok tt) (rest chosen) (Prompt city_prompt :: Get url :: log chosen)
    | Raise e =>
        Outcome (Raise e) (rest chosen) (Prompt city_prompt :: Get url :: log chosen)
    end
  else Outcome (Ok tt) stdin
         [Prompt city_prompt; Get url; Print Weather.no_city_found].
Proof.
  intros NB. unfold Weather.main.
  rewrite (bind_Ok _ _ _ query stdin [Prompt city_prompt]) by reflexivity.
  rewrite bind_run, (Weather_search_city_nonblank query stdin NB).
  cbv zeta.
  destruct (truthy (http_get_json (Weather.geo_url query))).
  - cbn [res rest log].
    destruct (res (Weather.choose _ stdin)) as [city|e]; [|reflexivity].
    destruct (truthy city); cbn [negb]; [reflexivity|].
    unfold ret. cbn [res rest log app]. now rewrite app_nil_r.
  - reflexivity.
Qed.

Lemma choose_single `{Platform} (candidate : json) (stdin : list string) :
  Weather.choose (JArr [candidate]) stdin = Outcome (Ok candidate) stdin [] /\
  Testing.choose (JArr [candidate]) stdin = Outcome (Ok candidate) stdin [].
Proof. split; reflexivity. Qed.

Lemma prompts_app (l1 l2 : list event) :
  prompts (l1 ++ l2) = (prompts l1 ++ prompts l2)%list.
Proof. apply flat_map_app. Qed.

Lemma quiet_bind {A B} (m : M A) (k : A -> M B) :
  quiet m -> (forall a, quiet (k a)) -> quiet (bind m k).
Proof.
  intros Qm Qk stdin. rewrite bind_run. destruct (Qm stdin) as [R P].
  destruct (res (m stdin)) as [a|e]; cbn [res rest log].
  - destruct (Qk a (rest (m stdin))) as [R' P'].
    rewrite prompts_app, P, P', R', R. now split.
  - now split.
Qed.

Lemma quiet_lift {A} (r : result A) : quiet (lift r).
Proof. intros stdin. now split. Qed.

Lemma quiet_print (line : string) : quiet (print line).
Proof. intros stdin. now split. Qed.

Lemma quiet_for_each {A} (body : A -> M unit) (xs : list A) :
  (forall x, quiet (body x)) -> quiet (for_each body xs).
Proof.
  intros Q. induction xs as [|x xs IH]; simpl.
  - intros stdin. now split.
  - apply quiet_bind; [apply Q | intros _; exact IH].
Qed.

Lemma quiet_weather_forecast `{Platform} (v : variant) (lat lon : json) :
  quiet (weather_forecast v lat lon).
Proof. intros stdin. rewrite weather_forecast_run. now split. Qed.

(** From the city on, neither variant asks or reads anything. *)
Lemma quiet_report `{Platform} (city : json) :
  quiet (Weather.report city) /\ quiet (Testing.report city).
Proof.
  split; unfold Weather.report, Testing.report;
    repeat (apply quiet_bind; [apply quiet_lift | intros ?]);
    (apply quiet_bind;
     [ apply (quiet_weather_forecast CalleeSide) || apply (quiet_weather_forecast CallerSide)
     | intros forecast_data ]);
    (destruct (truthy forecast_data); [|apply quiet_print]);
    (apply quiet_bind; [apply quiet_print | intros _]);
    (apply quiet_bind; [apply quiet_lift | intros days]);
    apply quiet_for_each; intros day;
    (apply quiet_bind; [apply quiet_lift | intros line; apply quiet_print]).
Qed.

(** C8.  One match: the callee-side [search_city] returns it, the
    caller-side [main] takes it, and the forecast is the one of that city.
    In both variants the only prompt of the turn is the one for the query,
    and no line after the query is read. *)
Theorem single_candidate `{Platform} (query : string) (stdin : list string)
    (candidate : json) :
  strip query <> "" ->
  http_get_json (Weather.geo_url query) = JArr [candidate] ->
  Weather.search_city query stdin =
    Outcome (Ok candidate) stdin [Get (Weather.geo_url query)] /\
  bind (Testing.search_city query) Testing.choose stdin =
    Outcome (Ok candidate) stdin [Get (Testing.geo_url query)] /\
  Testing.main (query :: stdin) =
    (let shown := Testing.report candidate stdin in
     Outcome (res shown) (rest shown)
             (Prompt city_prompt :: Get (Testing.geo_url query) :: log shown)) /\
  (truthy candidate = true ->
   Weather.main (query :: stdin) =
     (let shown := Weather.report candidate stdin in
      Outcome (res shown) (rest shown)
              (Prompt city_prompt :: Get (Weather.geo_url query) :: log shown))) /\
  prompts (log (Weather.main (query :: stdin))) = [city_prompt] /\
  rest (Weather.main (query :: stdin)) = stdin /\
  prompts (log (Testing.main (query :: stdin))) = [city_prompt] /\
  rest (Testing.main (query :: stdin)) = stdin.
Proof.
  intros NB Payload.
  destruct (choose_single candidate stdin) as [CW CT].
  destruct (quiet_report candidate) as [QW QT].
  destruct (QW stdin) as [RW PW]. destruct (QT stdin) as [RT PT].
  assert (TM : Testing.main (query :: stdin) =
               Outcome (res (Testing.report candidate stdin))
                       (rest (Testing.report candidate stdin))
                       (Prompt city_prompt :: Get (Testing.geo_url query)
                          :: log (Testing.report candidate stdin))).
  { rewrite Testing_main_run. cbv zeta.
    change (Testing.geo_url query) with (Weather.geo_url query). rewrite Payload.
    cbn [truthy]. now rewrite CT. }
  assert (WM : Weather.main (query :: stdin) =
               if truthy candidate then
                 Outcome (res (Weather.report candidate stdin))
                         (rest (Weather.report candidate stdin))
                         (Prompt city_prompt :: Get (Weather.geo_url query)
                            :: log (Weather.report candidate stdin))
               else Outcome (Ok tt) stdin
                            [Prompt city_prompt; Get (Weather.geo_url query)]).
  { rewrite (Weather_main_run query stdin NB). cbv zeta. rewrite Payload.
    cbn [truthy]. rewrite CW. cbn [res rest log app].
    now destruct (truthy candidate). }
  split; [|split; [|split; [|split]]].
  - rewrite (Weather_search_city_nonblank query stdin NB), Payload.
    cbn [truthy]. cbv zeta. now rewrite CW.
  - unfold bind. rewrite Testing_search_city_run.
    change (Testing.geo_url query) with (Weather.geo_url query). rewrite Payload.
    cbn [truthy res rest log]. now rewrite CT.
  - exact TM.
  - intros T. rewrite WM, T. reflexivity.
  - rewrite WM, TM. destruct (truthy candidate); cbn [res rest log].
    + change (prompts (Prompt city_prompt :: Get (Weather.geo_url query)
                         :: log (Weather.report candidate stdin)))
        with (city_prompt :: prompts (log (Weather.report candidate stdin))).
      change (prompts (Prompt city_prompt :: Get (Testing.geo_url query)
                         :: log (Testing.report candidate stdin)))
        with (city_prompt :: prompts (log (Testing.report candidate stdin))).
      now rewrite PW, PT, RW, RT.
    + change (prompts (Prompt city_prompt :: Get (Testing.geo_url query)
                         :: log (Testing.report candidate stdin)))
        with (city_prompt :: prompts (log (Testing.report candidate stdin))).
      now rewrite PT, RT.
Qed.

Lemma single_candidate_witness :
  @Weather.search_city demo "Luxembourg" ["next"] =
    Outcome (Ok luxembourg) ["next"] [Get (Weather.geo_url "Luxembourg")] /\
  bind (@Testing.search_city demo "Luxembourg") (@Testing.choose demo) ["next"] =
    Outcome (Ok luxembourg) ["next"] [Get (Testing.geo_url "Luxembourg")] /\
  @Testing.main demo ["Luxembourg"; "next"] =
    (let shown := @Testing.report demo luxembourg ["next"] in
     Outcome (res shown) (rest shown)
             (Prompt city_prompt :: Get (Testing.geo_url "Luxembourg") :: log shown)) /\
  (truthy luxembourg = true ->
   @Weather.main demo ["Luxembourg"; "next"] =
     (let shown := @Weather.report demo luxembourg ["next"] in
      Outcome (res shown) (rest shown)
              (Prompt city_prompt :: Get (Weather.geo_url "Luxembourg") :: log shown))) /\
  prompts (log (@Weather.main demo ["Luxembourg"; "next"])) = [city_prompt] /\
  rest (@Weather.main demo ["Luxembourg"; "next"]) = ["next"] /\
  prompts (log (@Testing.main demo ["Luxembourg"; "next"])) = [city_prompt] /\
  rest (@Testing.main demo ["Luxembourg"; "next"]) = ["next"].
Proof.
  exact (@single_candidate demo "Luxembourg" ["next"] luxembourg
           ltac:(discriminate) eq_refl).
Defined.

(** ** The choice among several matches *)

Lemma attempt_same : Testing.attempt = Weather.attempt.
Proof. reflexivity. Qed.

Lemma decimal_value_Ok (s : string) (acc : Z) :
  forallb isdecimal (chars s) = true -> 0 <= acc ->
  exists k, decimal_value acc s = Ok k /\ acc <= k.
Proof.
  revert acc. induction s as [|c s IH]; simpl; intros acc D A.
  - exists acc. split; [reflexivity | lia].
  - apply andb_true_iff in D as [Dc Ds]. rewrite Dc.
    assert (B : 48 <= ord c <= 57).
    { unfold isdecimal, between in Dc. apply andb_true_iff in Dc as [L U].
      apply Z.leb_le in L, U. lia. }
    destruct (IH (10 * acc + (ord c - 48)) Ds ltac:(lia)) as [k [E K]].
    exists k. split; [exact E | lia].
Qed.

Lemma decimal_value_Raise (s : string) (acc : Z) :
  forallb isdecimal (chars s) = false -> decimal_value acc s = Raise ValueError.
Proof.
  revert acc. induction s as [|c s IH]; simpl; intros acc D; [discriminate|].
  destruct (isdecimal c); simpl in D; [now apply IH | reflexivity].
Qed.

Lemma py_int_run (line : string) :
  line <> "" ->
  py_int line =
  if int_max_str_digits <? Z.of_nat (String.length line) then Raise ValueError
  else decimal_value 0 line.
Proof. destruct line; [congruence | reflexivity]. Qed.

(** What [int] makes of a line that passed [isdigit]. *)
Lemma py_int_of_digits (line : string) :
  str_isdigit line = true ->
  if forallb isdecimal (chars line) &&
     (Z.of_nat (String.length line) <=? int_max_str_digits)
  then exists k, py_int line = Ok k /\ 0 <= k /\ decimal_value 0 line = Ok k
  else py_int line = Raise ValueError.
Proof.
  unfold str_isdigit. intros D. apply andb_true_iff in D as [NE _].
  assert (N : line <> "") by (intros ->; discriminate).
  rewrite (py_int_run line N).
  destruct (Z.leb_spec (Z.of_nat (String.length line)) int_max_str_digits) as [L|L].
  - destruct (Z.ltb_spec int_max_str_digits (Z.of_nat (String.length line))); [lia|].
    rewrite andb_true_r.
    destruct (forallb isdecimal (chars line)) eqn:F.
    + destruct (decimal_value_Ok line 0 F ltac:(lia)) as [k [E K]].
      exists k. now repeat split.
    + apply (decimal_value_Raise line 0 F).
  - destruct (Z.ltb_spec int_max_str_digits (Z.of_nat (String.length line))); [|lia].
    now rewrite andb_false_r.
Qed.

(** C4, where the code departs from it.  A line holding a superscript digit
    passes [isdigit], and [int] then raises [ValueError]: the loop of either
    file ends with the exception instead of asking again, whatever the
    matches are and whatever lines follow; so does a whole turn of [main]
    for the two cities called Paris. *)
Theorem superscript_choice_raises (response : json) (stdin : list string) :
  str_isdigit superscript_two = true /\
  py_int superscript_two = Raise ValueError /\
  ask_until Weather.which_city Weather.invalid_choice (Weather.attempt response)
            (superscript_two :: stdin)
  = Outcome (Raise ValueError) stdin [Prompt Weather.which_city] /\
  ask_until Testing.which_city Testing.invalid_choice (Testing.attempt response)
            (superscript_two :: stdin)
  = Outcome (Raise ValueError) stdin [Prompt Testing.which_city] /\
  res (@Weather.main demo ["Paris"; superscript_two; "1"]) = Raise ValueError /\
  rest (@Weather.main demo ["Paris"; superscript_two; "1"]) = ["1"] /\
  res (@Testing.main demo ["Paris"; superscript_two; "1"]) = Raise ValueError /\
  rest (@Testing.main demo ["Paris"; superscript_two; "1"]) = ["1"].
Proof.
  split; [reflexivity|]. split; [reflexivity|].
  split; [reflexivity|]. split; [reflexivity|].
  repeat (split; [vm_compute; reflexivity|]). vm_compute; reflexivity.
Qed.

(** X1.  What the loop does keep of C4: a line is turned down, with the message
    and a new prompt, exactly when it is no digit string, or it is made of
    decimal digits, at most 4300 of them, and their value is outside
    [1 .. N]. *)
Theorem line_turned_down (cities : list json) (line : string) :
  Weather.attempt (JArr cities) line = Ok None <->
  str_isdigit line = false \/
  (forallb isdecimal (chars line) = true /\
   Z.of_nat (String.length line) <= 4300 /\
   exists k, decimal_value 0 line = Ok k /\
             (k < 1 \/ Z.of_nat (length cities) < k)).
Proof.
  unfold Weather.attempt. destruct (str_isdigit line) eqn:D.
  2:{ split; [now left | reflexivity]. }
  pose proof (py_int_of_digits line D) as P.
  destruct (forallb isdecimal (chars line)) eqn:F; cbn [andb] in P.
  2:{ rewrite P. split; [discriminate|].
      intros [X|[X _]]; discriminate. }
  destruct (Z.leb_spec (Z.of_nat (String.length line)) int_max_str_digits) as [L|L].
  2:{ rewrite P. split; [discriminate|].
      intros [X|[_ [X _]]]; [discriminate|]. unfold int_max_str_digits in L. lia. }
  destruct P as [k [E [K V]]]. rewrite E. cbn [result_bind].
  destruct (Z.leb_spec 1 k); simpl.
  2:{ split; [|reflexivity]. intros _. right. split; [reflexivity|].
      split; [exact L|]. exists k. split; [exact V | lia]. }
  destruct (Z.leb_spec k (Z.of_nat (length cities))); simpl.
  2:{ split; [|reflexivity]. intros _. right. split; [reflexivity|].
      split; [exact L|]. exists k. split; [exact V | lia]. }
  destruct (seq_getitem_in_bounds cities (k - 1) ltac:(lia)) as [c [_ G]].
  rewrite G. simpl. split; [discriminate|].
  intros [X|[_ [_ [k' [E' B]]]]]; [discriminate|].
  rewrite V in E'. inversion E'; lia.
Qed.

(** X2.  Any number of lines turned down, then a digit string that [int]
    converts (decimal digits, at most 4300 of them) and that is worth [k]
    in [1 .. N]: the loop returns match number [k], has read up to that
    line, and has answered each line before it with the message and a new
    prompt. *)
Theorem valid_choice_ends_the_loop (cities : list json) (turned_down : list string)
    (line : string) (after : list string) (k : Z) (city : json) :
  Forall (fun l => Weather.attempt (JArr cities) l = Ok None) turned_down ->
  str_isdigit line = true ->
  py_int line = Ok k ->
  1 <= k <= Z.of_nat (length cities) ->
  nth_error cities (Z.to_nat (k - 1)) = Some city ->
  ask_until Weather.which_city Weather.invalid_choice (Weather.attempt (JArr cities))
            (turned_down ++ line :: after)
  = Outcome (Ok city) after
      (flat_map (fun _ => [Prompt Weather.which_city; Print Weather.invalid_choice])
                turned_down ++ [Prompt Weather.which_city])%list.
Proof.
  intros T D I B N.
  assert (A : Weather.attempt (JArr cities) line = Ok (Some city)).
  { apply attempt_chosen. split; [exact D|]. now exists k. }
  induction T as [|l ls Tl _ IH]; simpl.
  - now rewrite A.
  - rewrite Tl, IH. reflexivity.
Qed.

Lemma valid_choice_ends_the_loop_witness :
  ask_until Weather.which_city Weather.invalid_choice
            (Weather.attempt (JArr [paris; paris_texas]))
            (["x"; "0"; "3"; " 1"] ++ "02" :: ["next"])
  = Outcome (Ok paris_texas) ["next"]
      (flat_map (fun _ => [Prompt Weather.which_city; Print Weather.invalid_choice])
                ["x"; "0"; "3"; " 1"] ++ [Prompt Weather.which_city])%list.
Proof.
  apply (valid_choice_ends_the_loop [paris; paris_texas] ["x"; "0"; "3"; " 1"]
           "02" ["next"] 2 paris_texas).
  - repeat constructor.
  - reflexivity.
  - reflexivity.
  - simpl; lia.
  - reflexivity.
Defined.

Lemma attempt_raises (cities : list json) (line : string) (e : exn) :
  Weather.attempt (JArr cities) line = Raise e <->
  e = ValueError /\ str_isdigit line = true /\
  (forallb isdecimal (chars line) = false \/
   4300 < Z.of_nat (String.length line)).
Proof.
  unfold Weather.attempt. destruct (str_isdigit line) eqn:D.
  2:{ split; [discriminate | intros [_ [X _]]; discriminate]. }
  pose proof (py_int_of_digits line D) as P.
  destruct (forallb isdecimal (chars line)) eqn:F; cbn [andb] in P.
  - destruct (Z.leb_spec (Z.of_nat (String.length line)) int_max_str_digits) as [L|L].
    + destruct P as [k [E [K _]]]. rewrite E. simpl.
      split.
      2:{ intros [_ [_ [X|X]]]; [discriminate|]. unfold int_max_str_digits in L. lia. }
      destruct (Z.leb_spec 1 k); simpl; [|discriminate].
      destruct (Z.leb_spec k (Z.of_nat (length cities))); simpl; [|discriminate].
      destruct (seq_getitem_in_bounds cities (k - 1) ltac:(lia)) as [c [_ G]].
      rewrite G. discriminate.
    + rewrite P. simpl. split.
      * intros E. inversion E. split; [reflexivity|]. split; [reflexivity|].
        right. exact L.
      * intros [-> _]. reflexivity.
  - rewrite P. simpl. split.
    + intros E. inversion E. split; [reflexivity|]. split; [reflexivity|]. now left.
    + intros [-> _]. reflexivity.
Qed.

Lemma ascii_digits_are_decimal (l : list ascii) :
  Forall (fun c => ord c < 128) l ->
  forallb isdigit l = true -> forallb isdecimal l = true.
Proof.
  induction 1 as [|c l Ac _ IH]; simpl; [reflexivity|]. intros D.
  apply andb_true_iff in D as [Dc Dl].
  rewrite (IH Dl), andb_true_r.
  unfold isdigit in Dc.
  destruct (isdecimal c); [reflexivity|]. simpl in Dc.
  repeat (apply orb_true_iff in Dc as [Dc|Dc]); apply Z.eqb_eq in Dc; lia.
Qed.

(** X3.  The loop ends with an exception, always [ValueError], on two kinds
    of line only: a digit string with a character that is no decimal
    digit, which in this range is a superscript, and a digit string of
    more than 4300 characters, which [int] refuses to convert.  A line of
    at most 4300 ASCII characters never does it. *)
Theorem line_raises (cities : list json) (line : string) (e : exn) :
  (Weather.attempt (JArr cities) line = Raise e <->
   e = ValueError /\ str_isdigit line = true /\
   (forallb isdecimal (chars line) = false \/
    4300 < Z.of_nat (String.length line))) /\
  (Forall (fun c => ord c < 128) (chars line) ->
   Z.of_nat (String.length line) <= 4300 ->
   Weather.attempt (JArr cities) line <> Raise e) /\
  (Testing.attempt (JArr cities) line = Weather.attempt (JArr cities) line).
Proof.
  split; [apply attempt_raises|]. split; [|reflexivity].
  intros A L R. apply attempt_raises in R as [_ [D [F|F]]]; [|lia].
  unfold str_isdigit in D. apply andb_true_iff in D as [_ D].
  rewrite (ascii_digits_are_decimal _ A D) in F. discriminate.
Qed.

(** A line of 4301 zeros passes [isdigit] and ends the loop, as the line of
    4300 zeros and a one does; 4299 zeros and a one are a choice of the
    first match. *)
Example long_lines :
  let zeros n := string_of_list_ascii (repeat "0"%char n) in
  Weather.attempt (JArr [paris; paris_texas]) (zeros 4301%nat) = Raise ValueError /\
  Weather.attempt (JArr [paris; paris_texas]) (zeros 4300%nat ++ "1") = Raise ValueError /\
  Weather.attempt (JArr [paris; paris_texas]) (zeros 4300%nat) = Ok None /\
  Weather.attempt (JArr [paris; paris_texas]) (zeros 4299%nat ++ "1") = Ok (Some paris).
Proof. repeat split; vm_compute; reflexivity. Qed.

(** ** The two variants side by side *)

Lemma same_log_refl (l : list event) : Forall2 same_event l l.
Proof. induction l; constructor; [constructor | assumption]. Qed.

Lemma agree_refl {A} (o : outcome A) : agree o o.
Proof. repeat split. apply same_log_refl. Qed.

Lemma agree_bind {A B} (m1 m2 : M A) (k1 k2 : A -> M B) (stdin : list string) :
  agree (m1 stdin) (m2 stdin) ->
  (forall a s, agree (k1 a s) (k2 a s)) ->
  agree (bind m1 k1 stdin) (bind m2 k2 stdin).
Proof.
  intros [R [S L]] K. rewrite !bind_run. rewrite <- R, <- S.
  destruct (res (m1 stdin)) as [a|e].
  - destruct (K a (rest (m1 stdin))) as [R' [S' L']].
    repeat split; cbn [res rest log]; try assumption.
    now apply Forall2_app.
  - repeat split; assumption.
Qed.

Lemma loops_agree (response : json) (stdin : list string) :
  agree (ask_until Weather.which_city Weather.invalid_choice
                   (Weather.attempt response) stdin)
        (ask_until Testing.which_city Testing.invalid_choice
                   (Testing.attempt response) stdin).
Proof.
  rewrite attempt_same. change Testing.which_city with Weather.which_city.
  induction stdin as [|line stdin [R [S L]]]; simpl.
  - apply agree_refl.
  - destruct (Weather.attempt response line) as [[city|]|e]; try apply agree_refl.
    repeat split; cbn [res rest log]; try assumption.
    constructor; [constructor|]. constructor; [constructor | assumption].
Qed.

Lemma choose_agree `{Platform} (response : json) (stdin : list string) :
  agree (Weather.choose response stdin) (Testing.choose response stdin).
Proof.
  unfold Weather.choose, Testing.choose.
  apply agree_bind; [apply agree_refl|]. intros n s.
  destruct (n =? 1); [apply agree_refl|].
  apply agree_bind; [apply agree_refl|]. intros _ s1.
  apply agree_bind; [apply agree_refl|]. intros cities s2.
  apply agree_bind; [apply agree_refl|]. intros _ s3.
  apply loops_agree.
Qed.

Lemma forecast_same `{Platform} : Weather.weather_forecast = Testing.weather_forecast.
Proof. reflexivity. Qed.

Lemma report_agree `{Platform} (city : json) (stdin : list string) :
  agree (Weather.report city stdin) (Testing.report city stdin).
Proof.
  unfold Weather.report, Testing.report.
  apply agree_bind; [apply agree_refl|]. intros lat s1.
  apply agree_bind; [apply agree_refl|]. intros lon s2.
  apply agree_bind; [apply agree_refl|]. intros name s3.
  apply agree_bind; [apply agree_refl|]. intros forecast_data s4.
  destruct (truthy forecast_data); [|apply agree_refl].
  apply agree_bind; [|intros; apply agree_refl].
  repeat split. cbn [log print]. constructor; [apply same_header | constructor].
Qed.

(** A city that counts as false has no ["lat"], so the caller-side report
    raises before it does anything. *)
Lemma report_of_falsy `{Platform} (city : json) (stdin : list string) :
  truthy city = false ->
  exists e, Testing.report city stdin = Outcome (Raise e) stdin [].
Proof.
  intros F. unfold Testing.report. rewrite bind_run.
  destruct city as [| | | | |items|fields]; cbn [lift res rest log py_getitem_str];
    try (eexists; reflexivity).
  destruct fields; [|discriminate]. eexists; reflexivity.
Qed.

(** C5, as the code has it.  For a query that is not blank once trimmed,
    whatever the service answers and whatever lines follow: both variants
    choose the same city, compute the forecast by the same function, make
    the same requests, prompts and prints in the same order up to the two
    wordings, and leave the same lines unread.  They end alike, except
    that a chosen city that counts as false makes the callee-side [main]
    return in silence where the caller-side one raises. *)
Theorem variants_agree_on_a_query `{Platform} (query : string) (stdin : list string) :
  strip query <> "" ->
  let callee := Weather.main (query :: stdin) in
  let caller := Testing.main (query :: stdin) in
  (truthy (http_get_json (Weather.geo_url query)) = true ->
   agree (Weather.search_city query stdin)
         (bind (Testing.search_city query) Testing.choose stdin)) /\
  Weather.weather_forecast = Testing.weather_forecast /\
  Forall2 same_event (log callee) (log caller) /\
  rest callee = rest caller /\
  (res callee = res caller \/
   exists city e,
     res (Weather.search_city query stdin) = Ok city /\ truthy city = false /\
     res callee = Ok tt /\ res caller = Raise e).
Proof.
  intros NB. cbv zeta.
  pose proof (Weather_search_city_nonblank query stdin NB) as SC. cbv zeta in SC.
  split; [|split; [reflexivity|]].
  - intros T. rewrite SC, T.
    rewrite (bind_Ok _ _ _ _ _ _ (Testing_search_city_run query stdin)).
    change (Testing.geo_url query) with (Weather.geo_url query). rewrite T.
    destruct (choose_agree (http_get_json (Weather.geo_url query)) stdin) as [R [S L]].
    repeat split; cbn [res rest log app]; try assumption.
    constructor; [constructor | assumption].
  - rewrite (Weather_main_run query stdin NB), Testing_main_run. cbv zeta.
    change (Testing.geo_url query) with (Weather.geo_url query).
    change Testing.no_city_found with Weather.no_city_found.
    destruct (truthy (http_get_json (Weather.geo_url query))) eqn:T.
    2:{ repeat split; [apply same_log_refl | now left]. }
    try rewrite T in SC.
    destruct (choose_agree (http_get_json (Weather.geo_url query)) stdin) as [R [S L]].
    rewrite <- R, <- S.
    destruct (res (Weather.choose (http_get_json (Weather.geo_url query)) stdin))
      as [city|e] eqn:RC.
    2:{ repeat split; cbn [res rest log]; [|now left].
        constructor; [constructor|]. constructor; [constructor | assumption]. }
    destruct (truthy city) eqn:TC.
    + destruct (report_agree city
                  (rest (Weather.choose (http_get_json (Weather.geo_url query)) stdin)))
        as [R' [S' L']].
      repeat split; cbn [res rest log]; [| assumption | now left].
      constructor; [constructor|]. constructor; [constructor|].
      now apply Forall2_app.
    + destruct (report_of_falsy city
                  (rest (Weather.choose (http_get_json (Weather.geo_url query)) stdin)) TC)
        as [e E].
      rewrite E. repeat split; cbn [res rest log].
      * rewrite app_nil_r.
        constructor; [constructor|]. constructor; [constructor | assumption].
      * right. exists city, e. rewrite SC. cbn [res]. now repeat split.
Qed.

Lemma variants_agree_on_a_query_witness :
  (truthy (@http_get_json demo (Weather.geo_url "Paris")) = true ->
   agree (@Weather.search_city demo "Paris" ["x"; "2"; "next"])
         (bind (@Testing.search_city demo "Paris") (@Testing.choose demo)
               ["x"; "2"; "next"])) /\
  @Weather.weather_forecast demo = @Testing.weather_forecast demo /\
  Forall2 same_event (log (@Weather.main demo ["Paris"; "x"; "2"; "next"]))
                     (log (@Testing.main demo ["Paris"; "x"; "2"; "next"])) /\
  rest (@Weather.main demo ["Paris"; "x"; "2"; "next"]) =
  rest (@Testing.main demo ["Paris"; "x"; "2"; "next"]) /\
  (res (@Weather.main demo ["Paris"; "x"; "2"; "next"]) =
   res (@Testing.main demo ["Paris"; "x"; "2"; "next"]) \/
   exists city e,
     res (@Weather.search_city demo "Paris" ["x"; "2"; "next"]) = Ok city /\
     truthy city = false /\
     res (@Weather.main demo ["Paris"; "x"; "2"; "next"]) = Ok tt /\
     res (@Testing.main demo ["Paris"; "x"; "2"; "next"]) = Raise e).
Proof.
  exact (@variants_agree_on_a_query demo "Paris" ["x"; "2"; "next"]
           ltac:(discriminate)).
Defined.

(** C5, as the claim has it, fails on a blank query.  The service here
    answers every search, the blank one too: the callee-side variant sends
    no request and chooses no city, the caller-side variant takes
    Luxembourg and prints its forecast. *)
Lemma blank_query_parts_the_variants :
  strip "  " = "" /\
  @Weather.main generous ["  "] =
    Outcome (Ok tt) []
      [Prompt city_prompt; Print "No city name provided, please try again."] /\
  @Testing.main generous ["  "] =
    Outcome (Ok tt) []
      [Prompt city_prompt;
       Get "https://weather.lewagon.com/geo/1.0/direct?q=%20%20&limit=5";
       Get "https://weather.lewagon.com/data/2.5/forecast?lat=49.5&lon=6.125&units=metric";
       Print "Here's the weather in Luxembourg:";
       Print ("2025-01-29: Light Rain 6.5" ++ degree ++ "C");
       Print ("2025-01-30: Broken Clouds 8.2" ++ degree ++ "C")] /\
  ~ agree (@Weather.main generous ["  "]) (@Testing.main generous ["  "]).
Proof.
  split; [reflexivity|]. split; [reflexivity|]. split; [reflexivity|].
  intros [_ [_ L]]. apply Forall2_length in L. discriminate.
Qed.

(** ** More on the forecast *)

Lemma collect_Forall {A B} (body : A -> result B) (xs : list A) (ys : list B) :
  collect body xs = Ok ys ->
  Forall (fun y => exists x, In x xs /\ body x = Ok y) ys.
Proof.
  revert ys; induction xs as [|x xs IH]; simpl; intros ys E.
  - inversion E. constructor.
  - destruct (body x) as [y|e] eqn:B0; simpl in E; [|discriminate].
    destruct (collect body xs) as [ys'|e]; simpl in E; [|discriminate].
    inversion E; subst. constructor.
    + exists x. split; [now left | exact B0].
    + specialize (IH ys' eq_refl).
      eapply Forall_impl; [|exact IH]. intros y' [x' [I Q]].
      exists x'. split; [now right | exact Q].
Qed.

Lemma collect_Raise {A B} (body : A -> result B) (xs : list A) (e : exn) :
  collect body xs = Raise e <->
  exists k x, nth_error xs k = Some x /\ body x = Raise e /\
    forall j x', (j < k)%nat -> nth_error xs j = Some x' -> exists y, body x' = Ok y.
Proof.
  induction xs as [|x0 xs IH]; simpl.
  - split; [discriminate | intros [[|k] [x [N _]]]; discriminate].
  - destruct (body x0) as [y0|e0] eqn:B0; simpl.
    + destruct (collect body xs) as [ys|e1]; simpl.
      * split; [discriminate|]. intros [k [x [N [R F]]]].
        destruct k as [|k]; simpl in N.
        -- inversion N; subst. congruence.
        -- assert (X : Raise (A:=list B) e = Raise e) by reflexivity.
           destruct IH as [_ IH]. discriminate IH.
           exists k, x. repeat split; try assumption.
           intros j x' L Nj. apply (F (S j) x'); [lia | exact Nj].
      * split.
        -- intros E. inversion E; subst e1.
           destruct IH as [IH _]. destruct (IH eq_refl) as [k [x [N [R F]]]].
           exists (S k), x. repeat split; try assumption.
           intros [|j] x' L Nj; simpl in Nj.
           ++ inversion Nj; subst. now exists y0.
           ++ apply (F j x'); [lia | exact Nj].
        -- intros [k [x [N [R F]]]]. destruct k as [|k]; simpl in N.
           ++ inversion N; subst. congruence.
           ++ f_equal. assert (Q : Raise (A:=list B) e1 = Raise e); [|now inversion Q].
              apply IH. exists k, x. repeat split; try assumption.
              intros j x' L Nj. apply (F (S j) x'); [lia | exact Nj].
    + split.
      * intros E. inversion E; subst e0. exists O, x0. repeat split; try assumption.
        intros j x' L. lia.
      * intros [k [x [N [R F]]]]. destruct k as [|k]; simpl in N.
        -- inversion N; subst. congruence.
        -- destruct (F O x0 ltac:(lia) eq_refl) as [y Q]. congruence.
Qed.

Lemma prefix_length (n : nat) (s : string) : (String.length (prefix n s) <= n)%nat.
Proof.
  revert s; induction n as [|n IH]; intros [|c s]; simpl; try lia.
  specialize (IH s). lia.
Qed.

Lemma py_len_nonneg (v : json) (n : Z) : py_len v = Ok n -> 0 <= n.
Proof. destruct v; simpl; intros E; inversion E; lia. Qed.

Lemma daily_shape `{Platform} (forecasts : json) (i : Z) (day : json) :
  Weather.daily forecasts i = Ok day ->
  exists date description temp,
    day = JObj [("date", date); ("description", JStr description); ("temp", temp)] /\
    ((exists s, date = JStr s /\ (String.length s <= 10)%nat) \/
     (exists l, date = JArr l /\ (length l <= 10)%nat)).
Proof.
  unfold Weather.daily. intros E.
  repeat match type of E with
         | result_bind ?r _ = _ => destruct r eqn:?; simpl in E; [|discriminate]
         end.
  inversion E; subst day.
  match goal with Q : py_title ?t = Ok ?d |- _ =>
    destruct t; try discriminate Q; unfold py_title in Q; injection Q as <- end.
  match goal with Q : py_slice_to ?t 10 = Ok ?d |- _ =>
    destruct t; try discriminate Q; unfold py_slice_to in Q; injection Q as <- end.
  - eexists _, _, _. split; [reflexivity|]. left.
    match goal with Q : py_getitem_str _ "dt_txt" = Ok (JStr ?s) |- _ =>
      exists (prefix 10 s) end.
    split; [reflexivity | apply prefix_length].
  - eexists _, _, _. split; [reflexivity|]. right.
    match goal with Q : py_getitem_str _ "dt_txt" = Ok (JArr ?l) |- _ =>
      exists (firstn 10 l) end.
    split; [reflexivity | apply firstn_le_length].
Qed.

(** Nothing but [weather[0]] raises [IndexError] once the interval is in
    hand. *)
Lemma getitem_str_no_IndexError (v : json) (key : string) :
  py_getitem_str v key <> Raise IndexError.
Proof.
  destruct v as [| | | | | |fields]; simpl; try discriminate.
  destruct (lookup key fields); discriminate.
Qed.

Lemma daily_IndexError `{Platform} (entry : json) :
  Weather.daily (JArr [entry]) 0 = Raise IndexError ->
  exists weather,
    py_getitem_str entry "weather" = Ok weather /\
    py_getitem_int weather 0 = Raise IndexError.
Proof.
  unfold Weather.daily. change (py_getitem_int (JArr [entry]) 0) with (Ok entry).
  cbn [result_bind].
  destruct (py_getitem_str entry "dt_txt") as [dt_txt|e] eqn:D; cbn [result_bind].
  2:{ intros R. destruct (getitem_str_no_IndexError entry "dt_txt"). congruence. }
  destruct (py_slice_to dt_txt 10) as [date_str|e] eqn:S; cbn [result_bind].
  2:{ destruct dt_txt; simpl in S; try discriminate; inversion S; discriminate. }
  destruct (py_getitem_str entry "weather") as [weather|e] eqn:W; cbn [result_bind].
  2:{ intros R. destruct (getitem_str_no_IndexError entry "weather"). congruence. }
  intros R. exists weather. split; [reflexivity|].
  destruct (py_getitem_int weather 0) as [first|e] eqn:F; cbn [result_bind] in R.
  2:{ congruence. }
  exfalso.
  destruct (py_getitem_str first "description") as [text|e] eqn:T; cbn [result_bind] in R.
  2:{ destruct (getitem_str_no_IndexError first "description"). congruence. }
  destruct (py_title text) as [description|e] eqn:Ti; cbn [result_bind] in R.
  2:{ destruct text; simpl in Ti; try discriminate; inversion Ti; subst; discriminate. }
  destruct (py_getitem_str entry "main") as [readings|e] eqn:M; cbn [result_bind] in R.
  2:{ destruct (getitem_str_no_IndexError entry "main"). congruence. }
  destruct (py_getitem_str readings "temp_max") as [temp|e] eqn:Te; cbn [result_bind] in R.
  2:{ destruct (getitem_str_no_IndexError readings "temp_max"). congruence. }
  discriminate.
Qed.

(** C10.  The loop of [weather_forecast] runs its body at the indices of
    [range(0, min(L, 40), 8)] and nowhere else, and each of them is below
    [L]: the access [forecasts[i]] yields the interval that is there, so
    that the day made at [i] is the one the body makes of that interval
    alone.  The branch of the access that raises [IndexError] is never
    taken: when the call does raise [IndexError], an interval that is in
    the list has an empty [weather], and it is [weather[0]] that
    raised. *)
Theorem sampled_index_in_bounds `{Platform} (v : variant) (lat lon : json)
    (stdin : list string) (entries : list json) :
  py_get (http_get_json (forecast_url lat lon)) "list" (JArr []) = Ok (JArr entries) ->
  let daily := match v with
               | CalleeSide => Weather.daily
               | CallerSide => Testing.daily
               end in
  let visited := py_range 0 (Z.min (Z.of_nat (length entries)) 40) 8 in
  weather_forecast v lat lon stdin =
    Outcome (days <- collect (daily (JArr entries)) visited ;; Ok (JArr days))%result
            stdin [Get (forecast_url lat lon)] /\
  Forall (fun i =>
    0 <= i < Z.of_nat (length entries) /\
    exists entry,
      nth_error entries (Z.to_nat i) = Some entry /\
      py_getitem_int (JArr entries) i = Ok entry /\
      daily (JArr entries) i = daily (JArr [entry]) 0) visited /\
  (res (weather_forecast v lat lon stdin) = Raise IndexError ->
   exists i entry weather,
     In i visited /\
     nth_error entries (Z.to_nat i) = Some entry /\
     py_getitem_str entry "weather" = Ok weather /\
     py_getitem_int weather 0 = Raise IndexError).
Proof.
  intros G daily visited.
  assert (Same : daily = Weather.daily) by (destruct v; reflexivity).
  assert (Run : weather_forecast v lat lon stdin =
    Outcome (days <- collect (daily (JArr entries)) visited ;; Ok (JArr days))%result
            stdin [Get (forecast_url lat lon)]).
  { rewrite weather_forecast_run, (reduce_list _ entries G), Same. reflexivity. }
  assert (Within : forall i, In i visited ->
    0 <= i < Z.of_nat (length entries) /\
    exists entry,
      nth_error entries (Z.to_nat i) = Some entry /\
      py_getitem_int (JArr entries) i = Ok entry /\
      daily (JArr entries) i = daily (JArr [entry]) 0).
  { intros i I. destruct (range_index_in_bounds entries i I) as [B [entry [N A]]].
    split; [exact B|]. exists entry. split; [exact N|]. split; [exact A|].
    rewrite Same. unfold Weather.daily. rewrite A. reflexivity. }
  split; [exact Run|]. split; [apply Forall_forall; exact Within|].
  rewrite Run. cbn [res]. intros R.
  destruct (collect (daily (JArr entries)) visited) as [days|e] eqn:C;
    cbn [result_bind] in R; [discriminate|].
  inversion R; subst e.
  apply collect_Raise in C as [k [i [Nk [D _]]]].
  apply nth_error_In in Nk.
  destruct (Within i Nk) as [_ [entry [N [_ Alone]]]].
  rewrite Alone, Same in D.
  destruct (daily_IndexError entry D) as [weather [W F]].
  exists i, entry, weather. now repeat split.
Qed.

Lemma sampled_index_in_bounds_witness :
  @weather_forecast no_conditions CalleeSide (JInt 1) (JInt 2) ["next"] =
    Outcome (days <- collect (@Weather.daily no_conditions (JArr no_conditions_list))
                             (py_range 0 (Z.min (Z.of_nat (length no_conditions_list)) 40) 8) ;;
             Ok (JArr days))%result
            ["next"] [Get (@forecast_url no_conditions (JInt 1) (JInt 2))] /\
  Forall (fun i =>
    0 <= i < Z.of_nat (length no_conditions_list) /\
    exists entry,
      nth_error no_conditions_list (Z.to_nat i) = Some entry /\
      py_getitem_int (JArr no_conditions_list) i = Ok entry /\
      @Weather.daily no_conditions (JArr no_conditions_list) i =
        @Weather.daily no_conditions (JArr [entry]) 0)
    (py_range 0 (Z.min (Z.of_nat (length no_conditions_list)) 40) 8) /\
  (res (@weather_forecast no_conditions CalleeSide (JInt 1) (JInt 2) ["next"]) =
     Raise IndexError ->
   exists i entry weather,
     In i (py_range 0 (Z.min (Z.of_nat (length no_conditions_list)) 40) 8) /\
     nth_error no_conditions_list (Z.to_nat i) = Some entry /\
     py_getitem_str entry "weather" = Ok weather /\
     py_getitem_int weather 0 = Raise IndexError).
Proof.
  exact (@sampled_index_in_bounds no_conditions CalleeSide (JInt 1) (JInt 2) ["next"]
           no_conditions_list eq_refl).
Defined.

(** The call does raise [IndexError] there, for want of a condition in the
    first reading; with the ten readings alone, which stop two short of
    the third sample point, it does not. *)
Example forecast_of_no_conditions :
  res (@weather_forecast no_conditions CalleeSide (JInt 1) (JInt 2) ["next"]) =
    Raise IndexError /\
  py_range 0 (Z.min (Z.of_nat (length ten_readings)) 40) 8 = [0; 8] /\
  exists days,
    res (@weather_forecast demo CalleeSide (JInt 1) (JInt 2) ["next"]) = Ok (JArr days) /\
    length days = 2%nat.
Proof.
  split; [reflexivity|]. split; [reflexivity|].
  eexists. split; [reflexivity | reflexivity].
Qed.

(** X4.  Whatever the service answered, a forecast that is returned is a
    list of at most five days, each a dict of exactly the keys [date],
    [description] and [temp], with a description that is a [str] and a date
    of at most ten characters (or items); so printing a day can only fail
    in formatting its temperature. *)
Theorem forecast_days_shape `{Platform} (v : variant) (lat lon : json)
    (stdin : list string) (out : json) :
  res (weather_forecast v lat lon stdin) = Ok out ->
  exists days,
    out = JArr days /\
    (length days <= 5)%nat /\
    Forall (fun day =>
      exists date description temp,
        day = JObj [("date", date); ("description", JStr description); ("temp", temp)] /\
        ((exists s, date = JStr s /\ (String.length s <= 10)%nat) \/
         (exists l, date = JArr l /\ (length l <= 10)%nat)) /\
        (forall e, Weather.day_line day = Raise e -> format_1f temp = Raise e) /\
        (forall e, Testing.day_line day = Raise e -> format_1f temp = Raise e)) days.
Proof.
  rewrite weather_forecast_run. simpl. unfold reduce. intros E.
  destruct (py_get _ "list" (JArr [])) as [forecasts|e]; simpl in E; [|discriminate].
  destruct (py_len forecasts) as [n|e] eqn:Len; simpl in E; [|discriminate].
  destruct (collect _ _) as [days|e] eqn:C; simpl in E; [|discriminate].
  inversion E; subst out. exists days. split; [reflexivity|]. split.
  - apply py_len_nonneg in Len.
    pose proof (collect_length _ _ _ C) as L.
    pose proof (py_range_length (Z.min n 40) ltac:(lia)) as R.
    assert (D : (Z.min n 40 + 7) / 8 < 6) by (apply Z.div_lt_upper_bound; lia).
    lia.
  - apply collect_Forall in C. eapply Forall_impl; [|exact C].
    intros day [i [_ D]]. apply daily_shape in D as [date [description [temp [-> S]]]].
    exists date, description, temp. split; [reflexivity|]. split; [exact S|].
    split; intros e; unfold Weather.day_line, Testing.day_line; simpl;
      destruct (format_1f temp); simpl; congruence.
Qed.

Lemma forecast_days_shape_witness :
  exists days,
    JArr [ @summary demo "2025-01-29 12:00:00" "light rain" (JFloat (65 # 10));
           @summary demo "2025-01-30 12:00:00" "broken clouds" (JFloat (825 # 100)) ]
    = JArr days /\
    (length days <= 5)%nat /\
    Forall (fun day =>
      exists date description temp,
        day = JObj [("date", date); ("description", JStr description); ("temp", temp)] /\
        ((exists s, date = JStr s /\ (String.length s <= 10)%nat) \/
         (exists l, date = JArr l /\ (length l <= 10)%nat)) /\
        (forall e, @Weather.day_line demo day = Raise e -> @format_1f demo temp = Raise e) /\
        (forall e, @Testing.day_line demo day = Raise e -> @format_1f demo temp = Raise e))
      days.
Proof.
  exact (@forecast_days_shape demo CalleeSide (JFloat (495 # 10)) (JFloat (6125 # 1000))
           [] _ eq_refl).
Defined.

Lemma py_range_8_nth (stop : Z) (k : nat) :
  nth_error (py_range 0 stop 8) k =
  if Z.of_nat (8 * k) <? stop then Some (Z.of_nat (8 * k)) else None.
Proof.
  rewrite py_range_nth by lia.
  replace (0 + Z.of_nat k * 8) with (Z.of_nat (8 * k)) by lia. reflexivity.
Qed.

(** X5.  The forecast is all or nothing: the call raises exactly when the
    interval at some sampled index [8k] makes the loop body raise while the
    sampled intervals before it did not, and the exception is that one; the
    days already made are lost, and the request is all that happened. *)
Theorem forecast_all_or_nothing `{Platform} (v : variant) (lat lon : json)
    (stdin : list string) (entries : list json) (e : exn) :
  py_get (http_get_json (forecast_url lat lon)) "list" (JArr []) = Ok (JArr entries) ->
  (weather_forecast v lat lon stdin =
     Outcome (Raise e) stdin [Get (forecast_url lat lon)]
   <->
   exists k : nat,
     Z.of_nat (8 * k) < Z.min (Z.of_nat (length entries)) 40 /\
     Weather.daily (JArr entries) (Z.of_nat (8 * k)) = Raise e /\
     forall j : nat, (j < k)%nat ->
       exists day, Weather.daily (JArr entries) (Z.of_nat (8 * j)) = Ok day) /\
  (res (weather_forecast v lat lon stdin) = Raise e ->
   weather_forecast v lat lon stdin =
     Outcome (Raise e) stdin [Get (forecast_url lat lon)]).
Proof.
  intros G. rewrite weather_forecast_run. rewrite (reduce_list _ _ G).
  set (stop := Z.min (Z.of_nat (length entries)) 40).
  split.
  - split.
    + intros E.
      destruct (collect _ _) as [days|e'] eqn:C; [discriminate|].
      assert (e' = e) by (inversion E; reflexivity). subst e'.
      apply collect_Raise in C as [k [i [N [R F]]]].
      rewrite py_range_8_nth in N.
      destruct (Z.ltb_spec (Z.of_nat (8 * k)) stop) as [L|L]; [|discriminate].
      inversion N; subst i. exists k. repeat split; try assumption.
      intros j J. apply (F j (Z.of_nat (8 * j)) J).
      rewrite py_range_8_nth.
      destruct (Z.ltb_spec (Z.of_nat (8 * j)) stop); [reflexivity | lia].
    + intros [k [L [R F]]].
      assert (C : collect (Weather.daily (JArr entries)) (py_range 0 stop 8) = Raise e).
      { apply collect_Raise. exists k, (Z.of_nat (8 * k)). split; [|split].
        - rewrite py_range_8_nth.
          destruct (Z.ltb_spec (Z.of_nat (8 * k)) stop); [reflexivity | lia].
        - exact R.
        - intros j i J N. rewrite py_range_8_nth in N.
          destruct (Z.of_nat (8 * j) <? stop); [|discriminate].
          inversion N; subst i. now apply F. }
      now rewrite C.
  - simpl. intros E. destruct (collect _ _); [discriminate|].
    inversion E; subst. reflexivity.
Qed.

Lemma forecast_all_or_nothing_witness :
  (@weather_forecast no_dates CallerSide (JInt 1) (JInt 2) ["next"] =
     Outcome (Raise KeyError) ["next"] [Get (@forecast_url no_dates (JInt 1) (JInt 2))]
   <->
   exists k : nat,
     Z.of_nat (8 * k) < Z.min (Z.of_nat (length late_gap)) 40 /\
     @Weather.daily no_dates (JArr late_gap) (Z.of_nat (8 * k)) = Raise KeyError /\
     forall j : nat, (j < k)%nat ->
       exists day, @Weather.daily no_dates (JArr late_gap) (Z.of_nat (8 * j)) = Ok day) /\
  (res (@weather_forecast no_dates CallerSide (JInt 1) (JInt 2) ["next"]) = Raise KeyError ->
   @weather_forecast no_dates CallerSide (JInt 1) (JInt 2) ["next"] =
     Outcome (Raise KeyError) ["next"] [Get (@forecast_url no_dates (JInt 1) (JInt 2))]).
Proof.
  exact (@forecast_all_or_nothing no_dates CallerSide (JInt 1) (JInt 2) ["next"]
           late_gap KeyError eq_refl).
Defined.

(** The ninth of the readings has lost its timestamp: the day made of the
    first is lost with it. *)
Example forecast_with_a_late_gap :
  @weather_forecast no_dates CallerSide (JInt 1) (JInt 2) ["next"] =
  Outcome (Raise KeyError) ["next"]
    [Get "https://weather.lewagon.com/data/2.5/forecast?lat=1&lon=2&units=metric"].
Proof. reflexivity. Qed.

Lemma collect_ext_in {A B} (f g : A -> result B) (xs : list A) :
  (forall x, In x xs -> f x = g x) -> collect f xs = collect g xs.
Proof.
  induction xs as [|x xs IH]; simpl; intros E; [reflexivity|].
  rewrite (E x (or_introl eq_refl)), IH; [reflexivity|].
  intros y I. apply E. now right.
Qed.

Lemma range_of_samples (entries : list json) (k : nat) :
  nth_error (py_range 0 (Z.min (Z.of_nat (length entries)) 40) 8) k =
  if (k <? 5)%nat then
    match nth_error entries (8 * k) with
    | Some _ => Some (Z.of_nat (8 * k))
    | None => None
    end
  else None.
Proof.
  rewrite py_range_8_nth.
  destruct (Nat.ltb_spec k 5) as [K|K].
  - destruct (nth_error entries (8 * k)) eqn:N.
    + assert ((8 * k < length entries)%nat) by (apply nth_error_Some; congruence).
      destruct (Z.ltb_spec (Z.of_nat (8 * k)) (Z.min (Z.of_nat (length entries)) 40));
        [reflexivity | lia].
    + apply nth_error_None in N.
      destruct (Z.ltb_spec (Z.of_nat (8 * k)) (Z.min (Z.of_nat (length entries)) 40));
        [lia | reflexivity].
  - destruct (Z.ltb_spec (Z.of_nat (8 * k)) (Z.min (Z.of_nat (length entries)) 40));
      [lia | reflexivity].
Qed.

(** X6.  Only the intervals at the indices 0, 8, 16, 24 and 32 count: two
    answers whose lists hold the same at these five places, or nothing at
    the same ones among them, give the same forecast, whatever the other
    intervals are and however many follow. *)
Theorem forecast_reads_five_places `{Platform} (v1 v2 : variant)
    (lat1 lon1 lat2 lon2 : json) (stdin1 stdin2 : list string)
    (entries1 entries2 : list json) :
  py_get (http_get_json (forecast_url lat1 lon1)) "list" (JArr []) = Ok (JArr entries1) ->
  py_get (http_get_json (forecast_url lat2 lon2)) "list" (JArr []) = Ok (JArr entries2) ->
  (forall k, (k < 5)%nat -> nth_error entries1 (8 * k) = nth_error entries2 (8 * k)) ->
  res (weather_forecast v1 lat1 lon1 stdin1) = res (weather_forecast v2 lat2 lon2 stdin2).
Proof.
  intros G1 G2 Same. rewrite !weather_forecast_run. simpl.
  rewrite (reduce_list _ _ G1), (reduce_list _ _ G2).
  assert (R : py_range 0 (Z.min (Z.of_nat (length entries1)) 40) 8 =
              py_range 0 (Z.min (Z.of_nat (length entries2)) 40) 8).
  { apply nth_error_ext. intros k. rewrite !range_of_samples.
    destruct (Nat.ltb_spec k 5) as [K|K]; [|reflexivity].
    now rewrite (Same k K). }
  rewrite <- R.
  rewrite (collect_ext_in (Weather.daily (JArr entries1)) (Weather.daily (JArr entries2)));
    [reflexivity|].
  intros i I. apply In_nth_error in I as [k N].
  rewrite range_of_samples in N.
  destruct (Nat.ltb_spec k 5) as [K|K]; [|discriminate].
  destruct (nth_error entries1 (8 * k)) as [entry|] eqn:N1; [|discriminate].
  inversion N; subst i.
  assert (N2 : nth_error entries2 (8 * k) = Some entry) by (rewrite <- (Same k K); exact N1).
  unfold Weather.daily. simpl.
  rewrite (seq_getitem_nth entries1 _ entry), (seq_getitem_nth entries2 _ entry);
    try lia; try reflexivity.
  - now rewrite Nat2Z.id.
  - now rewrite Nat2Z.id.
Qed.

Lemma forecast_reads_five_places_witness :
  res (@weather_forecast two_lists CalleeSide (JInt 1) (JInt 2) []) =
  res (@weather_forecast two_lists CallerSide (JInt 3) (JInt 4) ["next"]).
Proof.
  apply (@forecast_reads_five_places two_lists CalleeSide CallerSide
           (JInt 1) (JInt 2) (JInt 3) (JInt 4) [] ["next"] ten_readings mostly_null).
  - reflexivity.
  - reflexivity.
  - intros k K. do 5 (destruct k as [|k]; [reflexivity|]). lia.
Defined.

(** ** The list of matches *)

Lemma menu_line_same `{Platform} : Testing.menu_line = Weather.menu_line.
Proof. reflexivity. Qed.

Lemma menu_line_of_object `{Platform} (idx : Z) (fields : list (string * json)) :
  exists text, Weather.menu_line idx (JObj fields) = Ok text.
Proof.
  unfold Weather.menu_line, py_get.
  destruct (lookup "country" fields), (lookup "state" fields) as [state|],
    (lookup "name" fields) as [name|]; simpl;
    try match goal with |- context [if ?b then _ else _] => destruct b end;
    eexists; reflexivity.
Qed.

Lemma for_each_print {A} (text : A -> result string) (xs : list A)
    (lines : list string) (stdin : list string) :
  collect text xs = Ok lines ->
  for_each (fun x => bind (lift (text x)) (fun line => print line)) xs stdin =
  Outcome (Ok tt) stdin (map Print lines).
Proof.
  revert lines; induction xs as [|x xs IH]; cbn [for_each collect]; intros lines C.
  - inversion C. reflexivity.
  - destruct (text x) as [line|e] eqn:T; simpl in C; [|discriminate].
    destruct (collect text xs) as [lines'|e]; simpl in C; [|discriminate].
    inversion C; subst lines.
    rewrite (bind_Ok _ _ _ tt stdin [Print line]) by reflexivity.
    rewrite (IH lines' eq_refl). reflexivity.
Qed.

Lemma for_each_print_raises {A} (text : A -> result string) (xs : list A)
    (e : exn) (stdin : list string) :
  collect text xs = Raise e ->
  res (for_each (fun x => bind (lift (text x)) (fun line => print line)) xs stdin)
  = Raise e.
Proof.
  induction xs as [|x xs IH]; cbn [for_each collect]; intros C; [discriminate|].
  destruct (text x) as [line|e'] eqn:T; simpl in C.
  - destruct (collect text xs) as [lines'|e'] eqn:C'; simpl in C; [discriminate|].
    inversion C; subst e'.
    rewrite (bind_Ok _ _ _ tt stdin [Print line]) by reflexivity.
    cbn [res]. now apply IH.
  - inversion C; subst e'.
    now rewrite (bind_Raise _ _ _ e stdin []) by reflexivity.
Qed.

Lemma for_each_menu `{Platform} (cities : list json) (start : Z)
    (lines : list string) (stdin : list string) :
  collect (fun '(idx, city_info) => Weather.menu_line idx city_info)
          (enumerate start cities) = Ok lines ->
  for_each (fun '(idx, city_info) =>
              bind (lift (Weather.menu_line idx city_info)) (fun line => print line))
           (enumerate start cities) stdin =
  Outcome (Ok tt) stdin (map Print lines).
Proof.
  revert start lines; induction cities as [|c cs IH];
    cbn [for_each collect enumerate]; intros start lines C.
  - inversion C. reflexivity.
  - destruct (Weather.menu_line start c) as [line|e]; simpl in C; [|discriminate].
    destruct (collect _ (enumerate (start + 1) cs)) as [lines'|e] eqn:C';
      simpl in C; [|discriminate].
    inversion C; subst lines.
    rewrite (bind_Ok _ _ _ tt stdin [Print line]) by reflexivity.
    rewrite (IH (start + 1) lines' C'). reflexivity.
Qed.

Lemma collect_menu `{Platform} (cities : list json) (start : Z) :
  forallb is_object cities = true ->
  exists lines,
    collect (fun '(idx, city_info) => Weather.menu_line idx city_info)
            (enumerate start cities) = Ok lines /\
    length lines = length cities /\
    forall i city_info, nth_error cities i = Some city_info ->
      exists text, nth_error lines i = Some text /\
                   Weather.menu_line (start + Z.of_nat i) city_info = Ok text.
Proof.
  revert start; induction cities as [|c cs IH]; simpl; intros start O.
  - exists []. repeat split. intros [|i] ? N; discriminate.
  - apply andb_true_iff in O as [Oc Os].
    destruct c as [| | | | | |fields]; try discriminate.
    destruct (menu_line_of_object start fields) as [text T].
    destruct (IH (start + 1) Os) as [lines [C [L N]]].
    exists (text :: lines). rewrite T, C. simpl. split; [reflexivity|].
    split; [now rewrite L|].
    intros [|i] city_info Q; simpl in Q.
    + inversion Q; subst. exists text. split; [reflexivity|].
      now replace (start + Z.of_nat 0) with start by lia.
    + destruct (N i city_info Q) as [t [Nt Mt]]. exists t. split; [exact Nt|].
      now replace (start + Z.of_nat (S i)) with (start + 1 + Z.of_nat i) by lia.
Qed.

Lemma ask_until_accepts {A} (prompt invalid : string)
    (attempt : string -> result (option A)) (turned_down : list string)
    (line : string) (after : list string) (a : A) :
  Forall (fun l => attempt l = Ok None) turned_down ->
  attempt line = Ok (Some a) ->
  ask_until prompt invalid attempt (turned_down ++ line :: after) =
  Outcome (Ok a) after
    (flat_map (fun _ => [Prompt prompt; Print invalid]) turned_down ++ [Prompt prompt])%list.
Proof.
  intros T A0. induction T as [|l ls Tl _ IH]; simpl.
  - now rewrite A0.
  - rewrite Tl, IH. reflexivity.
Qed.

Lemma choose_several `{Platform} (cities : list json) (lines : list string)
    (stdin : list string) :
  length cities <> 1%nat ->
  collect (fun '(idx, city_info) => Weather.menu_line idx city_info)
          (enumerate 1 cities) = Ok lines ->
  Weather.choose (JArr cities) stdin =
    (let asked := ask_until Weather.which_city Weather.invalid_choice
                            (Weather.attempt (JArr cities)) stdin in
     Outcome (res asked) (rest asked)
             (Print "Multiple matches found:" :: map Print lines ++ log asked)%list) /\
  Testing.choose (JArr cities) stdin =
    (let asked := ask_until Testing.which_city Testing.invalid_choice
                            (Testing.attempt (JArr cities)) stdin in
     Outcome (res asked) (rest asked)
             (Print "Multiple matches found:" :: map Print lines ++ log asked)%list).
Proof.
  intros N C.
  assert (L : (Z.of_nat (length cities) =? 1) = false) by (apply Z.eqb_neq; lia).
  split; unfold Weather.choose, Testing.choose;
    rewrite (bind_Ok _ _ _ (Z.of_nat (length cities)) stdin []) by reflexivity;
    rewrite L;
    rewrite (bind_Ok _ _ _ tt stdin [Print "Multiple matches found:"]) by reflexivity;
    rewrite (bind_Ok _ _ _ cities stdin []) by reflexivity;
    change Testing.menu_line with Weather.menu_line;
    rewrite (bind_Ok _ _ _ tt stdin (map Print lines))
      by (apply for_each_menu; exact C);
    reflexivity.
Qed.

Lemma menu_line_numbered `{Platform} (idx : Z) (city_info : json) (text : string) :
  Weather.menu_line idx city_info = Ok text ->
  exists tail, text = decimal idx ++ ". " ++ tail.
Proof.
  unfold Weather.menu_line. intros E.
  repeat match type of E with
         | result_bind ?r _ = _ => destruct r; simpl in E; [|discriminate]
         end.
  match type of E with (if ?b then _ else _) = _ => destruct b end;
    inversion E; eexists; reflexivity.
Qed.

(** X7.  Several matches, all of them objects: the list is printed with one
    line per match, numbered from 1 in the order received, and the number
    typed is the number shown: after any lines turned down, a digit string
    that [int] converts (decimal digits, at most 4300 of them) and that is
    worth [k] returns the match whose line is line [k] of the list and
    begins with [k].  Both variants print the same list. *)
Theorem menu_and_choice `{Platform} (cities : list json) (turned_down : list string)
    (line : string) (after : list string) (k : Z) (city : json) :
  forallb is_object cities = true ->
  (2 <= length cities)%nat ->
  Forall (fun l => Weather.attempt (JArr cities) l = Ok None) turned_down ->
  str_isdigit line = true ->
  py_int line = Ok k ->
  1 <= k ->
  nth_error cities (Z.to_nat (k - 1)) = Some city ->
  exists lines text tail,
    length lines = length cities /\
    nth_error lines (Z.to_nat (k - 1)) = Some text /\
    Weather.menu_line k city = Ok text /\
    text = decimal k ++ ". " ++ tail /\
    Weather.choose (JArr cities) (turned_down ++ line :: after)%list =
      Outcome (Ok city) after
        (Print "Multiple matches found:" :: map Print lines ++
         flat_map (fun _ => [Prompt Weather.which_city; Print Weather.invalid_choice])
                  turned_down ++ [Prompt Weather.which_city])%list /\
    Testing.choose (JArr cities) (turned_down ++ line :: after)%list =
      Outcome (Ok city) after
        (Print "Multiple matches found:" :: map Print lines ++
         flat_map (fun _ => [Prompt Testing.which_city; Print Testing.invalid_choice])
                  turned_down ++ [Prompt Testing.which_city])%list.
Proof.
  intros O N T D I K C.
  destruct (collect_menu cities 1 O) as [lines [M [L Each]]].
  destruct (Each _ _ C) as [text [Nt Mt]].
  replace (1 + Z.of_nat (Z.to_nat (k - 1))) with k in Mt by lia.
  destruct (menu_line_numbered _ _ _ Mt) as [tail Tl].
  assert (B : (Z.to_nat (k - 1) < length cities)%nat)
    by (apply nth_error_Some; congruence).
  assert (A : Weather.attempt (JArr cities) line = Ok (Some city)).
  { apply attempt_chosen. split; [exact D|]. exists k. repeat split; try assumption; lia. }
  destruct (choose_several cities lines (turned_down ++ line :: after)%list
              ltac:(lia) M) as [CW CT].
  exists lines, text, tail. repeat split; try assumption.
  - rewrite CW. cbv zeta.
    now rewrite (ask_until_accepts _ _ _ turned_down line after city T A).
  - rewrite CT. cbv zeta. rewrite attempt_same.
    now rewrite (ask_until_accepts _ _ _ turned_down line after city T A).
Qed.

Lemma menu_and_choice_witness :
  exists lines text tail,
    length lines = length [paris; paris_texas] /\
    nth_error lines (Z.to_nat (2 - 1)) = Some text /\
    @Weather.menu_line demo 2 paris_texas = Ok text /\
    text = decimal 2 ++ ". " ++ tail /\
    @Weather.choose demo (JArr [paris; paris_texas]) (["x"; "3"] ++ "2" :: ["next"])%list =
      Outcome (Ok paris_texas) ["next"]
        (Print "Multiple matches found:" :: map Print lines ++
         flat_map (fun _ => [Prompt Weather.which_city; Print Weather.invalid_choice])
                  ["x"; "3"] ++ [Prompt Weather.which_city])%list /\
    @Testing.choose demo (JArr [paris; paris_texas]) (["x"; "3"] ++ "2" :: ["next"])%list =
      Outcome (Ok paris_texas) ["next"]
        (Print "Multiple matches found:" :: map Print lines ++
         flat_map (fun _ => [Prompt Testing.which_city; Print Testing.invalid_choice])
                  ["x"; "3"] ++ [Prompt Testing.which_city])%list.
Proof.
  apply (@menu_and_choice demo [paris; paris_texas] ["x"; "3"] "2" ["next"] 2 paris_texas).
  - reflexivity.
  - simpl; lia.
  - repeat constructor.
  - reflexivity.
  - reflexivity.
  - lia.
  - reflexivity.
Defined.

(** The list for the two cities called Paris. *)
Example menu_of_paris :
  prints (log (@Weather.choose demo (JArr [paris; paris_texas]) ["2"])) =
  ["Multiple matches found:"; "1. Paris, Ile-de-France, FR"; "2. Paris, Texas, US"].
Proof. reflexivity. Qed.

(** X8.  A line of the list, for a match whose name, state and country are
    strings (a missing one counts as the empty string): the state is left
    out when it is empty or the same as the name, and shown between name
    and country otherwise; a match that is an object never makes the line
    raise. *)
Theorem state_shown_when_it_differs `{Platform} (idx : Z)
    (fields : list (string * json)) (name state country : string) :
  let field key := match lookup key fields with Some v => v | None => JStr "" end in
  field "name" = JStr name ->
  field "state" = JStr state ->
  field "country" = JStr country ->
  let text :=
    if String.eqb state "" || String.eqb state name
    then decimal idx ++ ". " ++ name ++ ", " ++ country
    else decimal idx ++ ". " ++ name ++ ", " ++ state ++ ", " ++ country in
  Weather.menu_line idx (JObj fields) = Ok text /\
  Testing.menu_line idx (JObj fields) = Ok text.
Proof.
  intros field Nm St Co text. subst field text. cbv beta in Nm, St, Co.
  change Testing.menu_line with Weather.menu_line. unfold Weather.menu_line, py_get.
  assert (C : match lookup "country" fields with Some x => Ok x | None => Ok (JStr "") end
              = Ok (JStr country))
    by (revert Co; destruct (lookup "country" fields); intros Co; cbn in Co; congruence).
  assert (S : match lookup "state" fields with Some x => Ok x | None => Ok (JStr "") end
              = Ok (JStr state))
    by (revert St; destruct (lookup "state" fields); intros St; cbn in St; congruence).
  assert (N : match lookup "name" fields with Some x => Ok x | None => Ok (JStr "") end
              = Ok (JStr name))
    by (revert Nm; destruct (lookup "name" fields); intros Nm; cbn in Nm; congruence).
  rewrite C, S, N. cbn [result_bind truthy py_eq py_str].
  destruct (String.eqb state ""), (String.eqb state name); split; reflexivity.
Qed.

Lemma state_shown_when_it_differs_witness :
  @Weather.menu_line demo 3 (JObj [("name", JStr "Luxembourg"); ("state", JStr "Luxembourg")])
    = Ok "3. Luxembourg, " /\
  @Testing.menu_line demo 3 (JObj [("name", JStr "Luxembourg"); ("state", JStr "Luxembourg")])
    = Ok "3. Luxembourg, ".
Proof.
  exact (@state_shown_when_it_differs demo 3
           [("name", JStr "Luxembourg"); ("state", JStr "Luxembourg")]
           "Luxembourg" "Luxembourg" "" eq_refl eq_refl eq_refl).
Defined.

Lemma menu_line_of_other `{Platform} (idx : Z) (city_info : json) :
  is_object city_info = false -> Weather.menu_line idx city_info = Raise AttributeError.
Proof. destruct city_info; simpl; intros O; try discriminate; reflexivity. Qed.

Lemma for_each_menu_stops `{Platform} (before : list json) (bad : json)
    (after : list json) (start : Z) (stdin : list string) :
  forallb is_object before = true ->
  is_object bad = false ->
  exists lines,
    length lines = length before /\
    for_each (fun '(idx, city_info) =>
                bind (lift (Weather.menu_line idx city_info)) (fun line => print line))
             (enumerate start (before ++ bad :: after)) stdin =
    Outcome (Raise AttributeError) stdin (map Print lines).
Proof.
  intros O B. revert start. induction before as [|c cs IH]; intros start;
    cbn [app enumerate for_each].
  - exists []. split; [reflexivity|].
    rewrite (menu_line_of_other start bad B).
    now rewrite (bind_Raise _ _ _ AttributeError stdin []) by reflexivity.
  - simpl in O. apply andb_true_iff in O as [Oc Os].
    destruct c as [| | | | | |fields]; try discriminate.
    destruct (menu_line_of_object start fields) as [text T].
    destruct (IH Os (start + 1)) as [lines [L E]].
    exists (text :: lines). split; [simpl; now rewrite L|].
    rewrite T.
    rewrite (bind_Ok _ _ _ tt stdin [Print text]) by reflexivity.
    now rewrite E.
Qed.

(** X9.  Several matches of which one is no object ([null], say): the list
    is printed up to the line before it, then [.get] raises
    [AttributeError]; nothing is asked and no line is read. *)
Theorem menu_stops_at_a_non_object `{Platform} (before : list json) (bad : json)
    (after : list json) (stdin : list string) :
  forallb is_object before = true ->
  is_object bad = false ->
  (1 <= length before + length after)%nat ->
  exists lines,
    length lines = length before /\
    Weather.choose (JArr (before ++ bad :: after)) stdin =
      Outcome (Raise AttributeError) stdin
              (Print "Multiple matches found:" :: map Print lines) /\
    Testing.choose (JArr (before ++ bad :: after)) stdin =
      Outcome (Raise AttributeError) stdin
              (Print "Multiple matches found:" :: map Print lines).
Proof.
  intros O B N.
  destruct (for_each_menu_stops before bad after 1 stdin O B) as [lines [L E]].
  exists lines. split; [exact L|].
  assert (Len : (Z.of_nat (length (before ++ bad :: after)) =? 1) = false).
  { apply Z.eqb_neq. rewrite length_app. simpl. lia. }
  split; unfold Weather.choose, Testing.choose;
    rewrite (bind_Ok _ _ _ (Z.of_nat (length (before ++ bad :: after))) stdin [])
      by reflexivity;
    rewrite Len;
    rewrite (bind_Ok _ _ _ tt stdin [Print "Multiple matches found:"]) by reflexivity;
    rewrite (bind_Ok _ _ _ (before ++ bad :: after)%list stdin []) by reflexivity;
    change Testing.menu_line with Weather.menu_line;
    rewrite (bind_Raise _ _ _ _ _ _ E); reflexivity.
Qed.

Lemma menu_stops_at_a_non_object_witness :
  exists lines,
    length lines = length [paris] /\
    @Weather.choose demo (JArr ([paris] ++ JNull :: [paris_texas])) ["1"] =
      Outcome (Raise AttributeError) ["1"]
              (Print "Multiple matches found:" :: map Print lines) /\
    @Testing.choose demo (JArr ([paris] ++ JNull :: [paris_texas])) ["1"] =
      Outcome (Raise AttributeError) ["1"]
              (Print "Multiple matches found:" :: map Print lines).
Proof.
  apply (@menu_stops_at_a_non_object demo [paris] JNull [paris_texas] ["1"]).
  - reflexivity.
  - reflexivity.
  - simpl; lia.
Defined.

(** ** From the city to the printed forecast *)

Lemma report_run `{Platform} (fields : list (string * json)) (lat lon name : json)
    (stdin : list string) :
  lookup "lat" fields = Some lat ->
  lookup "lon" fields = Some lon ->
  lookup "name" fields = Some name ->
  Weather.report (JObj fields) stdin =
    match reduce (http_get_json (forecast_url lat lon)) with
    | Ok forecast_data =>
        let shown :=
          (if truthy forecast_data then
             bind (print ("Here's the weather in " ++ py_str name)) (fun _ =>
             bind (lift (py_iter forecast_data)) (fun days =>
             for_each (fun day => bind (lift (Weather.day_line day))
                                       (fun line => print line)) days))
           else print ("No forecast data found for " ++ py_str name ++ ".")) stdin in
        Outcome (res shown) (rest shown) (Get (forecast_url lat lon) :: log shown)
    | Raise e => Outcome (Raise e) stdin [Get (forecast_url lat lon)]
    end /\
  Testing.report (JObj fields) stdin =
    match reduce (http_get_json (forecast_url lat lon)) with
    | Ok forecast_data =>
        let shown :=
          (if truthy forecast_data then
             bind (print ("Here's the weather in " ++ py_str name ++ ":")) (fun _ =>
             bind (lift (py_iter forecast_data)) (fun days =>
             for_each (fun day => bind (lift (Testing.day_line day))
                                       (fun line => print line)) days))
           else print ("No forecast data found for " ++ py_str name ++ ".")) stdin in
        Outcome (res shown) (rest shown) (Get (forecast_url lat lon) :: log shown)
    | Raise e => Outcome (Raise e) stdin [Get (forecast_url lat lon)]
    end.
Proof.
  intros La Lo Na.
  split; unfold Weather.report, Testing.report;
    rewrite (bind_Ok _ _ _ lat stdin []) by (unfold lift; simpl; now rewrite La);
    rewrite (bind_Ok _ _ _ lon stdin []) by (unfold lift; simpl; now rewrite Lo);
    rewrite (bind_Ok _ _ _ name stdin []) by (unfold lift; simpl; now rewrite Na);
    rewrite bind_run;
    [ change (Weather.weather_forecast lat lon stdin)
        with (weather_forecast CalleeSide lat lon stdin)
    | change (Testing.weather_forecast lat lon stdin)
        with (weather_forecast CallerSide lat lon stdin) ];
    rewrite weather_forecast_run; cbn [res rest log app];
    destruct (reduce (http_get_json (forecast_url lat lon))); reflexivity.
Qed.

Lemma day_line_same `{Platform} : Testing.day_line = Weather.day_line.
Proof. reflexivity. Qed.

(** X10.  A city with [lat], [lon] and [name] whose forecast came back as
    [days]: one request, then either the line that no forecast was found
    (no day), or the line above the forecast, which the caller-side variant
    ends with a colon, and one line per day in the order of the forecast.
    Nothing is read.  When a temperature cannot be formatted the report
    raises what the format raised. *)
Theorem report_prints_the_forecast `{Platform} (fields : list (string * json))
    (lat lon name : json) (days : list json) (stdin : list string) :
  lookup "lat" fields = Some lat ->
  lookup "lon" fields = Some lon ->
  lookup "name" fields = Some name ->
  res (Weather.weather_forecast lat lon stdin) = Ok (JArr days) ->
  (forall lines, collect Weather.day_line days = Ok lines ->
     length lines = length days /\
     Weather.report (JObj fields) stdin =
       Outcome (Ok tt) stdin
         (Get (Weather.forecast_url lat lon) ::
          match days with
          | [] => [Print ("No forecast data found for " ++ py_str name ++ ".")]
          | _ => Print ("Here's the weather in " ++ py_str name) :: map Print lines
          end) /\
     Testing.report (JObj fields) stdin =
       Outcome (Ok tt) stdin
         (Get (Testing.forecast_url lat lon) ::
          match days with
          | [] => [Print ("No forecast data found for " ++ py_str name ++ ".")]
          | _ => Print ("Here's the weather in " ++ py_str name ++ ":") :: map Print lines
          end)) /\
  (forall e, collect Weather.day_line days = Raise e ->
     res (Weather.report (JObj fields) stdin) = Raise e /\
     res (Testing.report (JObj fields) stdin) = Raise e /\
     rest (Weather.report (JObj fields) stdin) = stdin /\
     rest (Testing.report (JObj fields) stdin) = stdin).
Proof.
  intros La Lo Na F.
  change (Weather.weather_forecast lat lon stdin)
    with (weather_forecast CalleeSide lat lon stdin) in F.
  rewrite weather_forecast_run in F. cbn [res] in F.
  destruct (report_run fields lat lon name stdin La Lo Na) as [RW RT].
  rewrite F in RW, RT. rewrite RW, RT. clear RW RT.
  change Testing.day_line with Weather.day_line.
  change (Weather.forecast_url lat lon) with (forecast_url lat lon).
  change (Testing.forecast_url lat lon) with (forecast_url lat lon).
  split.
  - intros lines C. split; [apply (collect_length _ _ _ C)|].
    destruct days as [|day days'].
    + inversion C. split; reflexivity.
    + cbn [truthy]. cbv zeta.
      split;
        rewrite (bind_Ok _ _ _ tt stdin [Print _]) by reflexivity;
        rewrite (bind_Ok _ _ _ (day :: days') stdin []) by reflexivity;
        rewrite (for_each_print Weather.day_line _ lines stdin C); reflexivity.
  - intros e C. destruct days as [|day days']; [discriminate|].
    cbn [truthy]. cbv zeta.
    pose proof (for_each_print_raises Weather.day_line (day :: days') e stdin C) as R.
    assert (Q : forall stdin', rest (for_each (fun d => bind (lift (Weather.day_line d))
                                  (fun line => print line)) (day :: days') stdin') = stdin').
    { intros stdin'. apply quiet_for_each. intros d.
      apply quiet_bind; [apply quiet_lift | intros l; apply quiet_print]. }
    repeat split;
      rewrite (bind_Ok _ _ _ tt stdin [Print _]) by reflexivity;
      rewrite (bind_Ok _ _ _ (day :: days') stdin []) by reflexivity;
      cbn [res rest]; auto.
Qed.

Lemma report_prints_the_forecast_witness :
  (forall lines,
     collect (@Weather.day_line demo)
       [ @summary demo "2025-01-29 12:00:00" "light rain" (JFloat (65 # 10));
         @summary demo "2025-01-30 12:00:00" "broken clouds" (JFloat (825 # 100)) ]
     = Ok lines ->
     length lines = 2%nat /\
     @Weather.report demo luxembourg ["next"] =
       Outcome (Ok tt) ["next"]
         (Get (@Weather.forecast_url demo (JFloat (495 # 10)) (JFloat (6125 # 1000))) ::
          Print ("Here's the weather in " ++ "Luxembourg") :: map Print lines) /\
     @Testing.report demo luxembourg ["next"] =
       Outcome (Ok tt) ["next"]
         (Get (@Testing.forecast_url demo (JFloat (495 # 10)) (JFloat (6125 # 1000))) ::
          Print ("Here's the weather in " ++ "Luxembourg" ++ ":") :: map Print lines)) /\
  (forall e,
     collect (@Weather.day_line demo)
       [ @summary demo "2025-01-29 12:00:00" "light rain" (JFloat (65 # 10));
         @summary demo "2025-01-30 12:00:00" "broken clouds" (JFloat (825 # 100)) ]
     = Raise e ->
     res (@Weather.report demo luxembourg ["next"]) = Raise e /\
     res (@Testing.report demo luxembourg ["next"]) = Raise e /\
     rest (@Weather.report demo luxembourg ["next"]) = ["next"] /\
     rest (@Testing.report demo luxembourg ["next"]) = ["next"]).
Proof.
  exact (@report_prints_the_forecast demo
           [("name", JStr "Luxembourg"); ("lat", JFloat (495 # 10));
            ("lon", JFloat (6125 # 1000)); ("country", JStr "LU");
            ("state", JStr "Luxembourg")]
           (JFloat (495 # 10)) (JFloat (6125 # 1000)) (JStr "Luxembourg")
           [ @summary demo "2025-01-29 12:00:00" "light rain" (JFloat (65 # 10));
             @summary demo "2025-01-30 12:00:00" "broken clouds" (JFloat (825 # 100)) ]
           ["next"] eq_refl eq_refl eq_refl eq_refl).
Defined.

(** What is printed for Luxembourg. *)
Example report_of_luxembourg :
  prints (log (@Weather.report demo luxembourg [])) =
  [ "Here's the weather in Luxembourg";
    "2025-01-29: Light Rain 6.5" ++ degree ++ "C";
    "2025-01-30: Broken Clouds 8.2" ++ degree ++ "C" ].
Proof. reflexivity. Qed.

(** X11.  A city without [lat], without [lon] or without [name] raises
    [KeyError], and a city that is no object raises [TypeError], before any
    request is sent: the name is looked up before the forecast is asked
    for, although it is only printed after. *)
Theorem report_needs_lat_lon_name `{Platform} (city : json) (stdin : list string) :
  (forall fields, city = JObj fields ->
     lookup "lat" fields = None \/ lookup "lon" fields = None \/
     lookup "name" fields = None ->
     Weather.report city stdin = Outcome (Raise KeyError) stdin [] /\
     Testing.report city stdin = Outcome (Raise KeyError) stdin []) /\
  (is_object city = false ->
     Weather.report city stdin = Outcome (Raise TypeError) stdin [] /\
     Testing.report city stdin = Outcome (Raise TypeError) stdin []).
Proof.
  assert (Found : forall fields key v, lookup key fields = Some v ->
            lift (py_getitem_str (JObj fields) key) stdin = Outcome (Ok v) stdin [])
    by (intros fields key v E; unfold lift; simpl; now rewrite E).
  assert (Lost : forall fields key, lookup key fields = None ->
            lift (py_getitem_str (JObj fields) key) stdin = Outcome (Raise KeyError) stdin [])
    by (intros fields key E; unfold lift; simpl; now rewrite E).
  split.
  - intros fields -> Missing.
    unfold Weather.report, Testing.report.
    destruct (lookup "lat" fields) as [lat|] eqn:La.
    2:{ split; apply bind_Raise; apply Lost; exact La. }
    rewrite !(bind_Ok _ _ _ _ _ _ (Found _ _ _ La)).
    destruct (lookup "lon" fields) as [lon|] eqn:Lo.
    2:{ split; rewrite (bind_Raise _ _ _ _ _ _ (Lost _ _ Lo)); reflexivity. }
    rewrite !(bind_Ok _ _ _ _ _ _ (Found _ _ _ Lo)).
    destruct (lookup "name" fields) as [name|] eqn:Na.
    2:{ split; rewrite (bind_Raise _ _ _ _ _ _ (Lost _ _ Na)); reflexivity. }
    destruct Missing as [M|[M|M]]; discriminate.
  - intros O. unfold Weather.report, Testing.report.
    destruct city; try discriminate; split; apply bind_Raise; reflexivity.
Qed.

(** ** The requests of a turn *)

Lemma gets_app (l1 l2 : list event) : gets (l1 ++ l2) = (gets l1 ++ gets l2)%list.
Proof. apply flat_map_app. Qed.

Lemma offline_bind {A B} (m : M A) (k : A -> M B) :
  offline m -> (forall a, offline (k a)) -> offline (bind m k).
Proof.
  intros Om Ok stdin. rewrite bind_run.
  destruct (res (m stdin)) as [a|e]; cbn [log].
  - now rewrite gets_app, Om, Ok.
  - apply Om.
Qed.

Lemma offline_lift {A} (r : result A) : offline (lift r).
Proof. intros stdin. reflexivity. Qed.

Lemma offline_print (line : string) : offline (print line).
Proof. intros stdin. reflexivity. Qed.

Lemma offline_for_each {A} (body : A -> M unit) (xs : list A) :
  (forall x, offline (body x)) -> offline (for_each body xs).
Proof.
  intros O. induction xs as [|x xs IH]; simpl.
  - intros stdin. reflexivity.
  - apply offline_bind; [apply O | intros _; exact IH].
Qed.

Lemma offline_ask_until {A} (prompt invalid : string)
    (attempt : string -> result (option A)) :
  offline (ask_until prompt invalid attempt).
Proof.
  intros stdin. induction stdin as [|line stdin IH]; simpl; [reflexivity|].
  destruct (attempt line) as [[a|]|e]; simpl; [reflexivity | exact IH | reflexivity].
Qed.

(** Choosing among the matches sends nothing. *)
Lemma offline_choose `{Platform} (response : json) :
  offline (Weather.choose response) /\ offline (Testing.choose response).
Proof.
  split; unfold Weather.choose, Testing.choose;
    (apply offline_bind; [apply offline_lift | intros n]);
    (destruct (n =? 1); [apply offline_lift|]);
    (apply offline_bind; [apply offline_print | intros _]);
    (apply offline_bind; [apply offline_lift | intros cities]);
    (apply offline_bind; [|intros _; apply offline_ask_until]);
    apply offline_for_each; intros [idx city_info];
    (apply offline_bind; [apply offline_lift | intros line; apply offline_print]).
Qed.

Lemma offline_show `{Platform} (forecast_data : json) (header nothing : string) :
  offline (if truthy forecast_data then
             bind (print header) (fun _ =>
             bind (lift (py_iter forecast_data)) (fun days =>
             for_each (fun day => bind (lift (Weather.day_line day))
                                       (fun line => print line)) days))
           else print nothing).
Proof.
  destruct (truthy forecast_data); [|apply offline_print].
  apply offline_bind; [apply offline_print | intros _].
  apply offline_bind; [apply offline_lift | intros days].
  apply offline_for_each; intros day.
  apply offline_bind; [apply offline_lift | intros line; apply offline_print].
Qed.

(** The report asks for the forecast of the city's coordinates once it has
    [lat], [lon] and [name], and sends nothing otherwise. *)
Lemma gets_report `{Platform} (city : json) (stdin : list string) :
  gets (log (Weather.report city stdin)) =
    match py_getitem_str city "lat", py_getitem_str city "lon",
          py_getitem_str city "name" with
    | Ok lat, Ok lon, Ok _ => [Weather.forecast_url lat lon]
    | _, _, _ => []
    end /\
  gets (log (Testing.report city stdin)) =
    match py_getitem_str city "lat", py_getitem_str city "lon",
          py_getitem_str city "name" with
    | Ok lat, Ok lon, Ok _ => [Testing.forecast_url lat lon]
    | _, _, _ => []
    end.
Proof.
  split; unfold Weather.report, Testing.report;
    (rewrite bind_run; cbn [lift res rest log];
     destruct (py_getitem_str city "lat") as [lat|e]; [|reflexivity]);
    (rewrite bind_run; cbn [lift res rest log];
     destruct (py_getitem_str city "lon") as [lon|e]; [|reflexivity]);
    (rewrite bind_run; cbn [lift res rest log];
     destruct (py_getitem_str city "name") as [name|e]; [|reflexivity]);
    rewrite bind_run;
    [ change (Weather.weather_forecast lat lon stdin)
        with (weather_forecast CalleeSide lat lon stdin)
    | change (Testing.weather_forecast lat lon stdin)
        with (weather_forecast CallerSide lat lon stdin) ];
    rewrite weather_forecast_run; cbn [res rest log app];
    (destruct (reduce (http_get_json (forecast_url lat lon))) as [forecast_data|e];
     [|reflexivity]);
    change Testing.day_line with Weather.day_line; cbn [log];
    match goal with
    | |- gets (Get ?u :: log (?m stdin)) = _ =>
        change (gets (Get u :: log (m stdin))) with (u :: gets (log (m stdin)))
    end;
    rewrite (offline_show forecast_data _ _ stdin); reflexivity.
Qed.

Lemma truthy_of_field (city : json) (key : string) (v : json) :
  py_getitem_str city key = Ok v -> truthy city = true.
Proof.
  destruct city as [| | | | | |fields]; try discriminate.
  destruct fields; [discriminate | reflexivity].
Qed.

(** X12.  The requests of one turn of [main], in the order they are sent.
    The first is the search for the query as it was typed, white space
    included; [weather.py] sends none for a query that is blank.  A second
    one follows only when the answer is not empty and a city came out of
    the choice that has [lat], [lon] and [name]: it is the forecast for
    that city's [lat] and [lon].  Listing the matches, asking for a choice
    and printing send nothing, so a turn never sends more than two. *)
Theorem requests_of_a_turn `{Platform} (query : string) (stdin : list string) :
  let search := BASE_URI ++ "/geo/1.0/direct?q=" ++ quote query ++ "&limit=5" in
  let answer := http_get_json search in
  let forecast_of (chosen : outcome json) :=
    match res chosen with
    | Ok city =>
        match py_getitem_str city "lat", py_getitem_str city "lon",
              py_getitem_str city "name" with
        | Ok lat, Ok lon, Ok _ =>
            [BASE_URI ++ "/data/2.5/forecast?lat=" ++ py_str lat ++ "&lon="
               ++ py_str lon ++ "&units=metric"]
        | _, _, _ => []
        end
    | Raise _ => []
    end in
  let caller := gets (log (Testing.main (query :: stdin))) in
  let callee := gets (log (Weather.main (query :: stdin))) in
  caller =
    search :: (if truthy answer then forecast_of (Testing.choose answer stdin)
               else []) /\
  callee =
    (if String.eqb (strip query) "" then []
     else search :: (if truthy answer then forecast_of (Weather.choose answer stdin)
                     else [])) /\
  (length caller <= 2)%nat /\ (length callee <= 2)%nat.
Proof.
  intros search answer forecast_of caller callee.
  assert (Short : forall chosen, (length (forecast_of chosen) <= 1)%nat).
  { intros chosen. unfold forecast_of. destruct (res chosen) as [city|e]; [|simpl; lia].
    destruct (py_getitem_str city "lat"), (py_getitem_str city "lon"),
      (py_getitem_str city "name"); simpl; lia. }
  assert (Caller : caller =
    search :: (if truthy answer then forecast_of (Testing.choose answer stdin)
               else [])).
  { unfold caller. rewrite Testing_main_run. cbv zeta.
    change (Testing.geo_url query) with search. fold answer.
    destruct (truthy answer); [|reflexivity].
    unfold forecast_of.
    destruct (res (Testing.choose answer stdin)) as [city|e] eqn:C; cbn [log].
    - change (gets (Prompt city_prompt :: Get search ::
                    log (Testing.choose answer stdin) ++
                    log (Testing.report city (rest (Testing.choose answer stdin))))%list)
        with (search :: gets (log (Testing.choose answer stdin) ++
                    log (Testing.report city (rest (Testing.choose answer stdin))))%list).
      rewrite gets_app, (proj2 (offline_choose answer) stdin).
      now rewrite (proj2 (gets_report city _)).
    - change (gets (Prompt city_prompt :: Get search ::
                    log (Testing.choose answer stdin)))
        with (search :: gets (log (Testing.choose answer stdin))).
      now rewrite (proj2 (offline_choose answer) stdin). }
  assert (Callee : callee =
    (if String.eqb (strip query) "" then []
     else search :: (if truthy answer then forecast_of (Weather.choose answer stdin)
                     else []))).
  { unfold callee. destruct (String.eqb_spec (strip query) "") as [B|NB].
    - unfold Weather.main.
      rewrite (bind_Ok _ _ _ query stdin [Prompt city_prompt]) by reflexivity.
      unfold Weather.search_city. rewrite truthy_strip, B. reflexivity.
    - rewrite (Weather_main_run query stdin NB). cbv zeta.
      change (Weather.geo_url query) with search. fold answer.
      destruct (truthy answer); [|reflexivity].
      unfold forecast_of.
      destruct (res (Weather.choose answer stdin)) as [city|e] eqn:C.
      + destruct (truthy city) eqn:T; cbn [log].
        * change (gets (Prompt city_prompt :: Get search ::
                    log (Weather.choose answer stdin) ++
                    log (Weather.report city (rest (Weather.choose answer stdin))))%list)
            with (search :: gets (log (Weather.choose answer stdin) ++
                    log (Weather.report city (rest (Weather.choose answer stdin))))%list).
          rewrite gets_app, (proj1 (offline_choose answer) stdin).
          now rewrite (proj1 (gets_report city _)).
        * change (gets (Prompt city_prompt :: Get search ::
                        log (Weather.choose answer stdin)))
            with (search :: gets (log (Weather.choose answer stdin))).
          rewrite (proj1 (offline_choose answer) stdin).
          destruct (py_getitem_str city "lat") as [lat|e] eqn:La; [|reflexivity].
          apply truthy_of_field in La. congruence.
      + cbn [log].
        change (gets (Prompt city_prompt :: Get search ::
                      log (Weather.choose answer stdin)))
          with (search :: gets (log (Weather.choose answer stdin))).
        now rewrite (proj1 (offline_choose answer) stdin). }
  split; [exact Caller|]. split; [exact Callee|].
  rewrite Caller, Callee. split.
  - destruct (truthy answer); simpl; [specialize (Short (Testing.choose answer stdin))|]; lia.
  - destruct (String.eqb (strip query) ""); [simpl; lia|].
    destruct (truthy answer); simpl; [specialize (Short (Weather.choose answer stdin))|]; lia.
Qed.

(** ** The lines a turn reads *)

Lemma asks_bind {A B} (m : M A) (k : A -> M B) :
  asks_before_reading m -> (forall a, asks_before_reading (k a)) ->
  asks_before_reading (bind m k).
Proof.
  intros Am Ak stdin. destruct (Am stdin) as [u1 [E1 [B1 O1]]].
  rewrite bind_run. destruct (res (m stdin)) as [a|e] eqn:R.
  - destruct (Ak a (rest (m stdin))) as [u2 [E2 [B2 O2]]].
    exists (u1 ++ u2)%list. cbn [res rest log].
    rewrite prompts_app, !length_app. specialize (O1 a eq_refl).
    split; [rewrite <- app_assoc, <- E2; exact E1|].
    split; [lia|]. intros b Rb. specialize (O2 b Rb). lia.
  - exists u1. cbn [res rest log].
    split; [exact E1|]. split; [exact B1|]. intros b Rb. discriminate.
Qed.

Lemma asks_silent {A} (m : M A) :
  quiet m -> asks_before_reading m.
Proof.
  intros Q stdin. destruct (Q stdin) as [R P]. exists []. rewrite R, P.
  split; [reflexivity|]. split; [simpl; lia | reflexivity].
Qed.

Lemma asks_input (prompt : string) : asks_before_reading (input prompt).
Proof.
  intros [|line stdin].
  - exists []. split; [reflexivity|]. split; [simpl; lia | discriminate].
  - exists [line]. split; [reflexivity|]. split; [simpl; lia | reflexivity].
Qed.

Lemma asks_ask_until {A} (prompt invalid : string)
    (attempt : string -> result (option A)) :
  asks_before_reading (ask_until prompt invalid attempt).
Proof.
  intros stdin. induction stdin as [|line stdin IH].
  - exists []. split; [reflexivity|]. split; [simpl; lia | discriminate].
  - cbn [ask_until]. destruct (attempt line) as [[a|]|e].
    + exists [line]. split; [reflexivity|]. split; [simpl; lia | reflexivity].
    + destruct IH as [used [E [B O]]]. exists (line :: used). cbn [res rest log].
      split; [cbn [app]; now rewrite <- E|].
      change (prompts (Prompt prompt :: Print invalid ::
                       log (ask_until prompt invalid attempt stdin)))
        with (prompt :: prompts (log (ask_until prompt invalid attempt stdin))).
      cbn [length]. split; [lia|]. intros a Ra. specialize (O a Ra). lia.
    + exists [line]. split; [reflexivity|]. split; [simpl; lia | discriminate].
Qed.

Lemma asks_choose `{Platform} (response : json) :
  asks_before_reading (Weather.choose response) /\
  asks_before_reading (Testing.choose response).
Proof.
  split; unfold Weather.choose, Testing.choose;
    (apply asks_bind; [apply asks_silent, quiet_lift | intros n]);
    (destruct (n =? 1); [apply asks_silent, quiet_lift|]);
    (apply asks_bind; [apply asks_silent, quiet_print | intros _]);
    (apply asks_bind; [apply asks_silent, quiet_lift | intros cities]);
    (apply asks_bind; [|intros _; apply asks_ask_until]);
    apply asks_silent, quiet_for_each; intros [idx city_info];
    (apply quiet_bind; [apply quiet_lift | intros line; apply quiet_print]).
Qed.

Lemma quiet_ret {A} (a : A) : quiet (ret a).
Proof. intros stdin. now split. Qed.

Lemma quiet_requests_get_json `{Platform} (url : string) :
  quiet (requests_get_json url).
Proof. intros stdin. now split. Qed.

Lemma asks_main `{Platform} :
  asks_before_reading Weather.main /\ asks_before_reading Testing.main.
Proof.
  split.
  - unfold Weather.main.
    apply asks_bind; [apply asks_input | intros query].
    apply asks_bind.
    + unfold Weather.search_city. destruct (negb (truthy (JStr (strip query)))).
      * apply asks_silent, quiet_bind; [apply quiet_print | intros _; apply quiet_ret].
      * apply asks_bind; [apply asks_silent, quiet_requests_get_json | intros response].
        destruct (negb (truthy response)); [|exact (proj1 (asks_choose response))].
        apply asks_silent, quiet_bind; [apply quiet_print | intros _; apply quiet_ret].
    + intros city. destruct (negb (truthy city)).
      * apply asks_silent, quiet_ret.
      * apply asks_silent. exact (proj1 (quiet_report city)).
  - unfold Testing.main.
    apply asks_bind; [apply asks_input | intros query].
    apply asks_bind.
    + unfold Testing.search_city.
      apply asks_bind; [apply asks_silent, quiet_requests_get_json | intros response].
      destruct (negb (truthy response)); apply asks_silent, quiet_ret.
    + intros results. destruct (negb (truthy results)).
      * apply asks_silent, quiet_print.
      * apply asks_bind; [exact (proj2 (asks_choose results)) | intros chosen_city].
        apply asks_silent. exact (proj2 (quiet_report chosen_city)).
Qed.

(** Either [main] starts by asking for the city. *)
Lemma main_asks_first `{Platform} (stdin : list string) :
  (exists l, log (Weather.main stdin) = Prompt city_prompt :: l) /\
  (exists l, log (Testing.main stdin) = Prompt city_prompt :: l).
Proof.
  split; unfold Weather.main, Testing.main; rewrite bind_run;
    destruct stdin as [|query stdin]; cbn [input res rest log];
    try (eexists; reflexivity);
    match goal with
    | |- context [bind ?m ?k stdin] =>
        rewrite (bind_run m k stdin); destruct (res (m stdin));
        cbn [log app]; eexists; reflexivity
    end.
Qed.

(** A turn that returns has read at least the line of the query. *)
Lemma main_reads_a_line `{Platform} (stdin : list string) :
  (forall a, res (Weather.main stdin) = Ok a ->
     (length (rest (Weather.main stdin)) < length stdin)%nat) /\
  (forall a, res (Testing.main stdin) = Ok a ->
     (length (rest (Testing.main stdin)) < length stdin)%nat).
Proof.
  split; intros a R.
  - destruct (proj1 asks_main stdin) as [used [E [_ O]]].
    destruct (proj1 (main_asks_first stdin)) as [l L].
    specialize (O a R). rewrite L in O. simpl in O.
    rewrite E at 2. rewrite length_app. lia.
  - destruct (proj2 asks_main stdin) as [used [E [_ O]]].
    destruct (proj2 (main_asks_first stdin)) as [l L].
    specialize (O a R). rewrite L in O. simpl in O.
    rewrite E at 2. rewrite length_app. lia.
Qed.

Lemma forever_ends (turn : M unit) :
  (forall stdin a, res (turn stdin) = Ok a ->
     (length (rest (turn stdin)) < length stdin)%nat) ->
  forall fuel stdin, (length stdin < fuel)%nat ->
    exists o e, forever turn fuel stdin = Some o /\ res o = Raise e.
Proof.
  intros Reads fuel. induction fuel as [|fuel IH]; intros stdin F; [lia|].
  cbn [forever]. destruct (res (turn stdin)) as [a|e] eqn:R.
  - specialize (Reads stdin a R).
    destruct (IH (rest (turn stdin)) ltac:(lia)) as [o [e [E Re]]].
    rewrite E. eexists; exists e. split; [reflexivity | exact Re].
  - exists (turn stdin), e. split; [reflexivity | exact R].
Qed.

Lemma forever_more_fuel (turn : M unit) (fuel : nat) (stdin : list string)
    (o : outcome unit) :
  forever turn fuel stdin = Some o -> forever turn (S fuel) stdin = Some o.
Proof.
  revert stdin o. induction fuel as [|fuel IH]; intros stdin o; [discriminate|].
  intros E. cbn [forever] in E. change (forever turn (S (S fuel)) stdin) with
    (let o := turn stdin in
     match res o with
     | Raise e => Some o
     | Ok _ =>
         match forever turn (S fuel) (rest o) with
         | Some o' => Some (Outcome (res o') (rest o') (log o ++ log o')%list)
         | None => None
         end
     end).
  cbv zeta. destruct (res (turn stdin)) as [a|e]; [|exact E].
  destruct (forever turn fuel (rest (turn stdin))) as [o'|] eqn:E'; [|discriminate].
  now rewrite (IH _ _ E').
Qed.

Lemma forever_enough_fuel (turn : M unit) (fuel fuel' : nat) (stdin : list string)
    (o : outcome unit) :
  (fuel <= fuel')%nat ->
  forever turn fuel stdin = Some o -> forever turn fuel' stdin = Some o.
Proof.
  intros L E. induction L as [|fuel' L IH]; [exact E|].
  now apply forever_more_fuel.
Qed.

(** X13.  A turn of either [main] reads its lines from the front of the
    input and asks before each one: the lines left are what follows the
    lines read, there is one prompt for every line read and one more only
    when the turn ends for want of a line.  A turn that returns has read
    at least the line of the query, so it leaves fewer lines than it
    found. *)
Theorem turn_reads_what_it_asks_for `{Platform} (stdin : list string) :
  let reads (turn : M unit) :=
    exists used,
      stdin = (used ++ rest (turn stdin))%list /\
      (length used <= length (prompts (log (turn stdin))) <= length used + 1)%nat /\
      (forall a, res (turn stdin) = Ok a ->
         length (prompts (log (turn stdin))) = length used /\
         (1 <= length used)%nat /\
         (length (rest (turn stdin)) < length stdin)%nat) in
  reads Weather.main /\ reads Testing.main.
Proof.
  intros reads. unfold reads. split.
  - destruct (proj1 asks_main stdin) as [used [E [B O]]].
    destruct (proj1 (main_asks_first stdin)) as [l L].
    exists used. split; [exact E|]. split; [exact B|].
    intros a R. specialize (O a R). split; [exact O|].
    rewrite L in O. simpl in O. split; [lia|].
    exact (proj1 (main_reads_a_line stdin) a R).
  - destruct (proj2 asks_main stdin) as [used [E [B O]]].
    destruct (proj2 (main_asks_first stdin)) as [l L].
    exists used. split; [exact E|]. split; [exact B|].
    intros a R. specialize (O a R). split; [exact O|].
    rewrite L in O. simpl in O. split; [lia|].
    exact (proj2 (main_reads_a_line stdin) a R).
Qed.

(** X14.  The loop [while True: main()] at the end of either file, fed
    from a finite input: it stops, and it stops with an exception.  No
    turn ends the loop by returning, every turn that returns has used up a
    line, and the handler around the loop is for the interrupt from the
    keyboard only; so after at most as many turns as there are lines, and
    one more, an exception leaves the loop.  One turn more than there are
    lines is fuel enough, and more fuel changes nothing. *)
Theorem session_ends_with_an_exception `{Platform} (stdin : list string) :
  (exists o e,
     res o = Raise e /\
     forall fuel, (length stdin < fuel)%nat ->
       forever Weather.main fuel stdin = Some o) /\
  (exists o e,
     res o = Raise e /\
     forall fuel, (length stdin < fuel)%nat ->
       forever Testing.main fuel stdin = Some o).
Proof.
  split.
  - destruct (forever_ends Weather.main
                (fun s => proj1 (main_reads_a_line s)) (S (length stdin)) stdin
                ltac:(lia)) as [o [e [E R]]].
    exists o, e. split; [exact R|]. intros fuel F.
    apply (forever_enough_fuel _ (S (length stdin))); [lia | exact E].
  - destruct (forever_ends Testing.main
                (fun s => proj2 (main_reads_a_line s)) (S (length stdin)) stdin
                ltac:(lia)) as [o [e [E R]]].
    exists o, e. split; [exact R|]. intros fuel F.
    apply (forever_enough_fuel _ (S (length stdin))); [lia | exact E].
Qed.

(** Two sessions with the demonstration service.  The second Paris is
    chosen, its forecast is shown, and the next turn finds no line.  And a
    letter is turned down, after which a superscript two ends the session
    with the line [Paris] unread. *)
Example session_of_paris :
  option_map (fun o => (res o, rest o, gets (log o)))
             (forever (@Weather.main demo) 3 ["Paris"; "2"]) =
    Some (Raise EOFError, [],
          ["https://weather.lewagon.com/geo/1.0/direct?q=Paris&limit=5";
           "https://weather.lewagon.com/data/2.5/forecast?lat=33.625&lon=-95.5&units=metric"]) /\
  option_map (fun o => (res o, rest o, gets (log o)))
             (forever (@Testing.main demo) 5 ["Paris"; "x"; superscript_two; "Paris"]) =
    Some (Raise ValueError, ["Paris"],
          ["https://weather.lewagon.com/geo/1.0/direct?q=Paris&limit=5"]).
Proof. split; vm_compute; reflexivity. Qed.

(** ** The address of the search *)

Lemma chars_app (s t : string) : chars (s ++ t) = (chars s ++ chars t)%list.
Proof.
  induction s as [|c s IH]; [reflexivity|].
  cbn [append chars list_ascii_of_string]. unfold chars in IH. now rewrite IH.
Qed.

Lemma quote_char_quoted (c : ascii) :
  forallb quoted_char (chars (quote_char c)) = true.
Proof. destruct c as [[] [] [] [] [] [] [] []]; vm_compute; reflexivity. Qed.

Lemma quote_quoted (s : string) : forallb quoted_char (chars (quote s)) = true.
Proof.
  induction s as [|c s IH]; [reflexivity|].
  cbn [quote]. now rewrite chars_app, forallb_app, quote_char_quoted, IH.
Qed.

Lemma quoted_char_plain (c : ascii) :
  quoted_char c = true ->
  between 37 126 (ord c) &&
  negb (existsb (Ascii.eqb c) (chars "&=?#+:@;,")) = true.
Proof. destruct c as [[] [] [] [] [] [] [] []]; vm_compute; congruence. Qed.

Lemma forallb_weaken {A} (p q : A -> bool) (l : list A) :
  (forall x, p x = true -> q x = true) ->
  forallb p l = true -> forallb q l = true.
Proof.
  intros W. induction l as [|x l IH]; [reflexivity|]. simpl.
  intros E. apply andb_prop in E as [Px Pl]. now rewrite (W x Px), IH.
Qed.

(** X15.  The address of the search, in either file, is the fixed text up
    to [q=], the query as [quote] writes it, and [&limit=5].  Whatever was
    typed, the part of the query holds only letters, digits and the
    characters [_.-~/%]: all of them printable ASCII, and none of them one
    of [&=?#+:@;,], a space or a control character.  So the query adds no
    parameter to the address and cannot end it. *)
Theorem search_url_keeps_the_query_apart (query : string) :
  let written := chars (quote query) in
  Weather.geo_url query =
    "https://weather.lewagon.com/geo/1.0/direct?q=" ++ quote query ++ "&limit=5" /\
  Testing.geo_url query = Weather.geo_url query /\
  forallb quoted_char written = true /\
  forallb (fun c => between 37 126 (ord c) &&
                    negb (existsb (Ascii.eqb c) (chars "&=?#+:@;,"))) written = true.
Proof.
  intros written. split; [reflexivity|]. split; [reflexivity|].
  split; [apply quote_quoted|].
  apply (forallb_weaken quoted_char); [exact quoted_char_plain | apply quote_quoted].
Qed.

Example search_url_of_a_query :
  Weather.geo_url "Aix & Marseille?" =
    "https://weather.lewagon.com/geo/1.0/direct?q=Aix%20%26%20Marseille%3F&limit=5".
Proof. reflexivity. Qed.
